(** * certbot-vault-plugin: the Vault installer of [certbot_vault/plugin.py]

    A shallow embedding of [VaultInstaller] (construction, [prepare],
    [deploy_cert], [renew_deploy]) and of the session helpers
    [get_session_for_server_name] / [SNIAdapter], followed by the properties
    of the specification that were checked against it.

    Python values are modelled as follows: [str] and [bytes] as [string],
    [int] as [Z], a configuration value ([self.conf(...)]) as
    [option string] ([None] is Python's [None]), the secret payload (a
    [dict]) as an insertion-ordered association list of JSON values.
    A [string] that stands for a text holds the characters below 128 as
    they are; the operations on texts that depend on the kind of a
    character ([strip], the digits of [strptime]) are those of Python on
    7-bit text, and the properties that rest on them say so ([Py.ascii7]).
    Everything the plugin obtains from its surroundings (the file system,
    the OpenSSL parser, the host's local time zone, the Vault server) is
    collected in the record [World]; the calls the plugin makes on it are
    recorded, in program order, in a trace of [Event]s. *)

From Stdlib Require Import ZArith String Ascii List Bool Lia.
From Stdlib Require Import DecimalString DecimalPos DecimalZ.
Import ListNotations.
Set Warnings "-register-all".
Local Open Scope string_scope.
Local Open Scope Z_scope.

(* ------------------------------------------------------------------ *)
(** ** Python built-ins used by the plugin *)

Module Py.

(** Truth value of a configuration entry: [None] and [''] are false. *)
Definition truthy (v : option string) : bool :=
  match v with
  | None => false
  | Some EmptyString => false
  | Some (String _ _) => true
  end.

(** [a or b] on an optional string with a string default. *)
Definition or_default (v : option string) (d : string) : string :=
  match v with
  | Some (String c s) => String c s
  | _ => d
  end.

(** [s.startswith(p)] *)
Definition startswith (p s : string) : bool := String.prefix p s.

(** [s.endswith(p)] for a one-character [p]. *)
Fixpoint endswith_char (c : ascii) (s : string) : bool :=
  match s with
  | EmptyString => false
  | String a EmptyString => Ascii.eqb a c
  | String _ rest => endswith_char c rest
  end.

(** [s[n:]] *)
Fixpoint slice_from (n : nat) (s : string) : string :=
  match n, s with
  | O, _ => s
  | S _, EmptyString => EmptyString
  | S n', String _ rest => slice_from n' rest
  end.

(** [needle in hay] on strings. *)
Fixpoint contains (needle hay : string) : bool :=
  String.prefix needle hay ||
  match hay with
  | EmptyString => false
  | String _ rest => contains needle rest
  end.

(** [s.split(sep)] for a one-character separator: never an empty list. *)
Fixpoint split (sep : ascii) (s : string) : list string :=
  match s with
  | EmptyString => [EmptyString]
  | String c rest =>
      if Ascii.eqb c sep then EmptyString :: split sep rest
      else match split sep rest with
           | [] => [String c EmptyString]
           | w :: ws => String c w :: ws
           end
  end.

(** [sep.join(parts)] *)
Fixpoint join (sep : string) (parts : list string) : string :=
  match parts with
  | [] => EmptyString
  | [p] => p
  | p :: ps => p ++ sep ++ join sep ps
  end.

(** Whether every character of a text is below 128. *)
Fixpoint ascii7 (s : string) : bool :=
  match s with
  | EmptyString => true
  | String c rest => Nat.ltb (nat_of_ascii c) 128 && ascii7 rest
  end.

(** [c.isspace()] on the code points below 128: tab, line feed, vertical
    tab, form feed, carriage return, the separators 28-31, and space.
    (Python has further white space above 127, such as U+00A0.) *)
Definition isspace (c : ascii) : bool :=
  let n := nat_of_ascii c in
  (Nat.leb 9 n && Nat.leb n 13) || (Nat.leb 28 n && Nat.leb n 32).

(** [s.lstrip()], [s.rstrip()], [s.strip()], on 7-bit text. *)
Fixpoint lstrip (s : string) : string :=
  match s with
  | EmptyString => EmptyString
  | String c rest => if isspace c then lstrip rest else s
  end.

Fixpoint rstrip (s : string) : string :=
  match s with
  | EmptyString => EmptyString
  | String c rest =>
      match rstrip rest with
      | EmptyString => if isspace c then EmptyString else String c EmptyString
      | r => String c r
      end
  end.

Definition strip (s : string) : string := rstrip (lstrip s).

(** [str(n)] for an [int]: the decimal numeral, with a leading [-] when
    negative; Python integers are unbounded, and so is [Z]. *)
Definition str_int (n : Z) : string := NilZero.string_of_int (Z.to_int n).

(** The integer a decimal numeral denotes ([int(s)] on a numeral). *)
Definition int_of_str (s : string) : option Z :=
  option_map Z.of_int (NilZero.int_of_string s).

(** [str(b)] for a [bytes] value of printable characters without quotes
    or backslashes: [b'...']. *)
Definition str_bytes (b : string) : string := "b'" ++ b ++ "'".

(** The translation of line ends of a text-mode read ([newline=None]):
    every CR LF and every other CR becomes LF. *)
Definition CR : ascii := ascii_of_nat 13.
Definition LF : ascii := ascii_of_nat 10.

Fixpoint universal_newlines (s : string) : string :=
  match s with
  | EmptyString => EmptyString
  | String c rest =>
      if Ascii.eqb c CR then
        match rest with
        | String d rest' =>
            if Ascii.eqb d LF then String LF (universal_newlines rest')
            else String LF (universal_newlines rest)
        | EmptyString => String LF EmptyString
        end
      else String c (universal_newlines rest)
  end.

(** [posixpath.join(a, b)]: what [os.path.join] is on a POSIX host. *)
Definition posixpath_join (a b : string) : string :=
  if startswith "/" b then b
  else if (match a with EmptyString => true | _ => false end)
          || endswith_char "/" a
       then a ++ b
       else a ++ "/" ++ b.

End Py.

(* ------------------------------------------------------------------ *)
(** ** [requests]: sessions and transport adapters *)

Module Requests.

(** [pathlib.Path(s)]; [str] of it is kept abstract as the wrapped text. *)
Inductive Path := MkPath (s : string).

(** The transport adapters a session can hold: the library's
    [HTTPAdapter], and the plugin's [SNIAdapter(server_name, ca_certs)]. *)
Inductive Adapter :=
| HTTPAdapter
| SNIAdapter (server_name : string) (ca_certs : option Path).

(** The keyword arguments an adapter hands to its pool manager, as far as
    TLS goes: [server_hostname] and [ca_certs] ([None]: the keyword is
    not set by the adapter). *)
Record PoolKwargs := {
  server_hostname : option string;
  ca_certs_kw : option Path
}.

(** [SNIAdapter.init_poolmanager]: sets [server_hostname], and [ca_certs]
    when [self.ca_certs] is not [None] (a [Path] is always true). The
    plain [HTTPAdapter] sets neither. *)
Definition init_poolmanager (a : Adapter) : PoolKwargs :=
  match a with
  | HTTPAdapter => {| server_hostname := None; ca_certs_kw := None |}
  | SNIAdapter name ca =>
      {| server_hostname := Some name;
         ca_certs_kw := match ca with Some p => Some p | None => None end |}
  end.

(** A session: its mounted adapters, by URL prefix. *)
Record Session := { adapters : list (string * Adapter) }.

(** [requests.Session()] *)
Definition new_Session : Session :=
  {| adapters := [("https://", HTTPAdapter); ("http://", HTTPAdapter)] |}.

(** [s.mount(prefix, adapter)]: replaces the adapter of [prefix]. *)
Fixpoint mount_in (prefix : string) (a : Adapter) (l : list (string * Adapter))
  : list (string * Adapter) :=
  match l with
  | [] => [(prefix, a)]
  | (p, b) :: rest =>
      if String.eqb p prefix then (prefix, a) :: rest
      else (p, b) :: mount_in prefix a rest
  end.

Definition mount (prefix : string) (a : Adapter) (s : Session) : Session :=
  {| adapters := mount_in prefix a (adapters s) |}.

(** [s.get_adapter(url)] for a URL that starts with [prefix]. *)
Fixpoint get_adapter_in (prefix : string) (l : list (string * Adapter))
  : option Adapter :=
  match l with
  | [] => None
  | (p, a) :: rest => if String.eqb p prefix then Some a else get_adapter_in prefix rest
  end.

(** The keywords the adapter of the [https://] prefix of a session hands
    to its pool manager. (With what a connection is validated in the end
    is settled by [requests] when it sends a request: it sets the CA
    bundle of the connection from [session.verify].) *)
Definition https_kwargs (s : Session) : option PoolKwargs :=
  option_map init_poolmanager (get_adapter_in "https://" (adapters s)).

End Requests.

(* ------------------------------------------------------------------ *)
(** ** [OpenSSL.crypto]: the parsed certificate *)

Module X509.

(** One entry of a GENERAL_NAMES value. [GEN_OTHER] stands for every type
    other than rfc822Name, dNSName and URI and carries the text
    [GENERAL_NAME_print] gives for it (for instance [IP Address:10.0.0.1]). *)
Inductive GeneralName :=
| GEN_EMAIL (value : string)
| GEN_DNS (value : string)
| GEN_URI (value : string)
| GEN_OTHER (printed : string).

(** An extension: its short name ([get_short_name()], a [bytes]) and the
    general names its value decodes to. *)
Record X509Extension := {
  get_short_name : string;
  general_names : list GeneralName
}.

(** [X509Extension._subjectAltNameString()] of pyOpenSSL: every entry as
    [label:value] (labels [email], [DNS], [URI]; other types as printed
    by OpenSSL), joined by a comma and a space. *)
Definition name_part (n : GeneralName) : string :=
  match n with
  | GEN_EMAIL v => "email:" ++ v
  | GEN_DNS v => "DNS:" ++ v
  | GEN_URI v => "URI:" ++ v
  | GEN_OTHER s => s
  end.

Definition _subjectAltNameString (e : X509Extension) : string :=
  Py.join ", " (map name_part (general_names e)).

(** The certificate as the plugin reads it. [get_notBefore()] and
    [get_notAfter()] give the ASN.1 GENERALIZEDTIME text
    [YYYYMMDDhhmmssZ]. *)
Record X509 := {
  get_serial_number : Z;
  get_notBefore : string;
  get_notAfter : string;
  extensions : list X509Extension
}.

End X509.

(* ------------------------------------------------------------------ *)
(** ** [datetime]: [strptime] and [timestamp] *)

Module PyDatetime.

(** A naive [datetime] (no [tzinfo], [fold = 0], no microseconds). *)
Record datetime := {
  year : Z; month : Z; day : Z;
  hour : Z; minute : Z; second : Z
}.

Definition _is_leap (y : Z) : bool :=
  (y mod 4 =? 0) && (negb (y mod 100 =? 0) || (y mod 400 =? 0)).

Definition _days_before_year (y : Z) : Z :=
  let y1 := y - 1 in y1 * 365 + y1 / 4 - y1 / 100 + y1 / 400.

Definition _DAYS_IN_MONTH : list Z :=
  [-1; 31; 28; 31; 30; 31; 30; 31; 31; 30; 31; 30; 31].

Definition _DAYS_BEFORE_MONTH : list Z :=
  [-1; 0; 31; 59; 90; 120; 151; 181; 212; 243; 273; 304; 334].

Definition _days_in_month (y m : Z) : Z :=
  if (m =? 2) && _is_leap y then 29 else nth (Z.to_nat m) _DAYS_IN_MONTH 0.

Definition _days_before_month (y m : Z) : Z :=
  nth (Z.to_nat m) _DAYS_BEFORE_MONTH 0
  + (if (2 <? m) && _is_leap y then 1 else 0).

Definition _ymd2ord (y m d : Z) : Z :=
  _days_before_year y + _days_before_month y m + d.

(** The fields the [datetime] constructor accepts. *)
Definition valid_fields (d : datetime) : bool :=
  (1 <=? year d) && (year d <=? 9999)
  && (1 <=? month d) && (month d <=? 12)
  && (1 <=? day d) && (day d <=? _days_in_month (year d) (month d))
  && (0 <=? hour d) && (hour d <=? 23)
  && (0 <=? minute d) && (minute d <=? 59)
  && (0 <=? second d) && (second d <=? 59).

(** The regular expression [strptime] compiles the format to. A
    character class is a test on one character, an alternative a sequence
    of classes, a group an ordered choice of alternatives; the groups of
    a format are matched in sequence, with backtracking into the earlier
    choices, as [re.match] does. *)
Definition cls : Type := ascii -> bool.

Definition range (lo hi : ascii) : cls :=
  fun c => Nat.leb (nat_of_ascii lo) (nat_of_ascii c)
           && Nat.leb (nat_of_ascii c) (nat_of_ascii hi).

Definition lit (a : ascii) : cls := fun c => Ascii.eqb c a.

(** The digits on 7-bit text. (On other text Python's class also holds
    the decimal digits of other scripts.) *)
Definition any_digit : cls := range "0" "9".

(** One alternative at the head of a text: the matched part and the rest. *)
Fixpoint match_classes (cs : list cls) (s : string) : option (string * string) :=
  match cs with
  | [] => Some (EmptyString, s)
  | c :: cs' =>
      match s with
      | EmptyString => None
      | String a rest =>
          if c a then
            match match_classes cs' rest with
            | Some (m, r) => Some (String a m, r)
            | None => None
            end
          else None
      end
  end.

(** A sequence of groups at the head of a text: the first way to match
    all of them, taking the alternatives of every group in order. *)
Fixpoint match_groups (gs : list (list (list cls))) (s : string)
  : option (list string * string) :=
  match gs with
  | [] => Some ([], s)
  | g :: gs' =>
      (fix try (alts : list (list cls)) : option (list string * string) :=
         match alts with
         | [] => None
         | alt :: alts' =>
             match match_classes alt s with
             | Some (m, r) =>
                 match match_groups gs' r with
                 | Some (ms, r') => Some (m :: ms, r')
                 | None => try alts'
                 end
             | None => try alts'
             end
         end) g
  end.

(** The groups of the directives [%Y %m %d %H %M %S], and of the literal
    [Z], which is matched without regard to case. *)
Definition re_Y : list (list cls) := [[any_digit; any_digit; any_digit; any_digit]].
Definition re_m : list (list cls) :=
  [[lit "1"; range "0" "2"]; [lit "0"; range "1" "9"]; [range "1" "9"]].
Definition re_d : list (list cls) :=
  [[lit "3"; range "0" "1"]; [range "1" "2"; any_digit];
   [lit "0"; range "1" "9"]; [range "1" "9"]; [lit " "; range "1" "9"]].
Definition re_H : list (list cls) :=
  [[lit "2"; range "0" "3"]; [range "0" "1"; any_digit]; [any_digit]].
Definition re_M : list (list cls) := [[range "0" "5"; any_digit]; [any_digit]].
Definition re_S : list (list cls) :=
  [[lit "6"; range "0" "1"]; [range "0" "5"; any_digit]; [any_digit]].
Definition re_Z : list (list cls) := [[lit "Z"]; [lit "z"]].

Definition date_format_regex : list (list (list cls)) :=
  [re_Y; re_m; re_d; re_H; re_M; re_S; re_Z].

(** [int(g)] on a matched group: digits, after an optional space. *)
Definition int_of_group (g : string) : Z :=
  (fix go (acc : Z) (s : string) : Z :=
     match s with
     | EmptyString => acc
     | String c rest =>
         if any_digit c
         then go (10 * acc + (Z.of_nat (nat_of_ascii c) - 48)) rest
         else go acc rest
     end) 0 g.

(** [datetime.strptime(s, "%Y%m%d%H%M%SZ")] on 7-bit text: the text
    must match the regular expression of the format with nothing left
    over, and the fields must make a [datetime]. The letter Z of the format is a
    literal, so the result is naive. [None] is a [ValueError]. *)
Definition strptime (s : string) : option datetime :=
  match match_groups date_format_regex s with
  | Some ([gY; gm; gd; gH; gM; gS; _], EmptyString) =>
      let dt := {| year := int_of_group gY; month := int_of_group gm;
                   day := int_of_group gd; hour := int_of_group gH;
                   minute := int_of_group gM; second := int_of_group gS |} in
      if valid_fields dt then Some dt else None
  | _ => None
  end.

(** [(self - datetime(1970, 1, 1)) // timedelta(0, 1)]: the seconds from
    the epoch to the fields read as they stand. *)
Definition seconds_since_epoch (d : datetime) : Z :=
  (_ymd2ord (year d) (month d) (day d) - _ymd2ord 1970 1 1) * 86400
  + hour d * 3600 + minute d * 60 + second d.

Section LocalTime.

(** The host's time zone: the offset of local time from UTC, in seconds,
    in force at a UTC instant. *)
Variable utcoffset : Z -> Z.

(** The seconds since the epoch of 0001-01-01 00:00:00 and of
    9999-12-31 23:59:59: the readings a [datetime] can hold. *)
Definition min_seconds : Z := -62135596800.
Definition max_seconds : Z := 253402300799.

Definition in_range (s : Z) : bool := (min_seconds <=? s) && (s <=? max_seconds).

(** [local(u)] of [datetime._mktime]: the local wall clock at the
    instant [u], in seconds since the epoch. [None] is the [ValueError]
    raised when that reading falls outside the years 1 to 9999. *)
Definition local (u : Z) : option Z :=
  let l := u + utcoffset u in
  if in_range l then Some l else None.

Definition max_fold_seconds : Z := 24 * 3600.

(** [datetime._mktime] for [fold = 0]: solve [t = local(u)] for [u].
    [_mktime_rest] is the part after the first [if] statement. An error
    of [local] ends the computation. *)
Definition _mktime_rest (t u1 t1 b : Z) : option Z :=
  let u2 := t - b in
  match local u2 with
  | None => None
  | Some t2 =>
      if t2 =? t then Some u2
      else if t1 =? t then Some u1
      else Some (Z.max u1 u2)
  end.

Definition _mktime (d : datetime) : option Z :=
  let t := seconds_since_epoch d in
  match local t with
  | None => None
  | Some lt =>
      let a := lt - t in
      let u1 := t - a in
      match local u1 with
      | None => None
      | Some t1 =>
          if t1 =? t then
            let u2 := u1 + - max_fold_seconds in
            match local u2 with
            | None => None
            | Some lt2 =>
                let b := lt2 - u2 in
                if a =? b then Some u1 else _mktime_rest t u1 t1 b
            end
          else
            let b := t1 - u1 in
            _mktime_rest t u1 t1 b
      end
  end.

(** [int(d.timestamp())] for a naive [d]: the value of [_mktime], the
    microseconds being zero. A naive [datetime] is taken as local time.
    [None] is the [ValueError] of [_mktime]. *)
Definition timestamp (d : datetime) : option Z := _mktime d.

End LocalTime.

End PyDatetime.

(* ------------------------------------------------------------------ *)
(** ** The plugin *)

Module Plugin.

Import Requests X509.

(** JSON values, and a [dict] as an insertion-ordered association list. *)
Inductive Json :=
| JStr (s : string)
| JInt (n : Z)
| JList (l : list Json)
| JDict (d : list (string * Json)).

Definition Dict := list (string * Json).

(** [d[k]] when present. *)
Fixpoint dict_get (d : Dict) (k : string) : option Json :=
  match d with
  | [] => None
  | (k', v) :: rest => if String.eqb k' k then Some v else dict_get rest k
  end.

(** [d[k] = v] *)
Fixpoint dict_set (d : Dict) (k : string) (v : Json) : Dict :=
  match d with
  | [] => [(k, v)]
  | (k', v') :: rest =>
      if String.eqb k' k then (k, v) :: rest else (k', v') :: dict_set rest k v
  end.

(** The options of [add_parser_arguments], as [self.conf(name)] gives them. *)
Record Conf := {
  auth_path : option string;
  token : option string;
  role_id : option string;
  secret_id : option string;
  jwt_role : option string;
  jwt_key : option string;
  addr : option string;
  tls_server_name : option string;
  tls_cacert : option string;
  mount : option string;
  path : option string
}.

(** [hvac.Client]: its address, its session and the token it holds. *)
Record Client := {
  url : option string;
  session : Session;
  client_token : option string
}.

Record VaultInstaller := {
  conf : Conf;
  hvac_client : Client
}.


(** The exceptions. [OSError]: a file cannot be opened or read;
    [UnicodeDecodeError]: its bytes are not a text in the codec of the
    read; [UnicodeEncodeError]: a text handed to [load_certificate] is
    not ASCII; [CryptoError]: [OpenSSL.crypto.Error]; [VaultError]: what
    an [hvac] call raises. *)
Inductive Exception :=
| OSError (filename : string)
| UnicodeDecodeError (filename : string)
| UnicodeEncodeError
| CryptoError
| ValueError (data : string)
| IndexError
| PluginError (msg : string)
| VaultError (call : string).

(** The calls the plugin makes on its surroundings. A login is a request
    of the client, and carries the token the client holds at that time
    ([held]). *)
Inductive Event :=
| EvOpen (filename : string)
| EvLoadCertificate (pem : string)
| EvApproleLogin (held : option string) (role secret mount_point : string)
| EvJwtLogin (held : option string) (role jwt : string)
             (login_path : option string)
| EvIsAuthenticated (tok : option string)
| EvCreateOrUpdateSecret (mount_point : option string) (secret_path : string)
                         (secret : Dict).

(** The surroundings. [read_file p] is the content of the file at [p],
    its bytes ([None]: it cannot be opened or read); [decode] is the
    codec of a text-mode [open] without [encoding], the locale's
    ([None]: the bytes are not a text in it); [load_certificate] is
    OpenSSL's PEM parser ([None]: it raises); [utcoffset] is the host's
    time zone; [os_path_join] is the host's [os.path.join]; the logins
    give the client token the server issues ([None]: the call raises);
    [token_valid] is the outcome of a lookup of a token ([None]: the
    lookup raises, [Some false]: the server turns the token down);
    [store_accepts] tells whether the write succeeds; [default_token] is
    the token [hvac.Client] picks up by itself. *)
Record World := {
  read_file : string -> option string;
  decode : string -> option string;
  load_certificate : string -> option X509;
  utcoffset : Z -> Z;
  os_path_join : string -> string -> string;
  approle_login : string -> string -> string -> option string;
  jwt_login : string -> string -> option string -> option string;
  token_valid : string -> option bool;
  store_accepts : option string -> string -> Dict -> bool;
  default_token : option string
}.

(** Outcome of a call: an exception or a value, with the trace so far. *)
Inductive Result (A : Type) :=
| Raise (e : Exception)
| Return (a : A).
Arguments Raise {A} e.
Arguments Return {A} a.

Definition M (A : Type) : Type := list Event * Result A.

Definition ret {A} (a : A) : M A := ([], Return a).
Definition raise {A} (e : Exception) : M A := ([], Raise e).
Definition emit (ev : Event) : M unit := ([ev], Return tt).

Definition bind {A B} (m : M A) (k : A -> M B) : M B :=
  match m with
  | (t, Raise e) => (t, Raise e)
  | (t, Return a) => let (t', r) := k a in ((t ++ t')%list, r)
  end.

Notation "x <- m ;; k" := (bind m (fun x => k))
  (at level 61, m at next level, right associativity).
Notation "m ;;; k" := (bind m (fun _ => k))
  (at level 61, right associativity).

Definition trace {A} (m : M A) : list Event := fst m.
Definition outcome {A} (m : M A) : Result A := snd m.

Definition is_write (ev : Event) : bool :=
  match ev with EvCreateOrUpdateSecret _ _ _ => true | _ => false end.
Definition is_open (ev : Event) : bool :=
  match ev with EvOpen _ => true | _ => false end.
Definition is_approle_login (ev : Event) : bool :=
  match ev with EvApproleLogin _ _ _ _ => true | _ => false end.

Definition lift {A} (r : Result A) : M A := ([], r).

Definition conf_str (v : option string) : string :=
  match v with Some s => s | None => EmptyString end.

(** [get_session_for_server_name(name, ca_certs)] *)
Definition get_session_for_server_name (name : string) (ca_certs : option Path)
  : Session :=
  let s := new_Session in
  Requests.mount "https://" (SNIAdapter name ca_certs) s.

Section WithWorld.

Variable w : World.

(** What [open(p).read()] gives: the file is opened in text mode, so its
    bytes are decoded and the line ends translated. *)
Definition file_text (p : string) : Result string :=
  match read_file w p with
  | None => Raise (OSError p)
  | Some raw =>
      match decode w raw with
      | None => Raise (UnicodeDecodeError p)
      | Some text => Return (Py.universal_newlines text)
      end
  end.

(** [open(p).read()] *)
Definition open_read (p : string) : M string :=
  emit (EvOpen p) ;;; lift (file_text p).

(** What [load_certificate(FILETYPE_PEM, pem)] gives for a text: the text
    is first encoded as ASCII, then parsed. *)
Definition parse_certificate (pem : string) : Result X509 :=
  if Py.ascii7 pem then
    match load_certificate w pem with
    | Some c => Return c
    | None => Raise CryptoError
    end
  else Raise UnicodeEncodeError.

(** [OpenSSL.crypto.load_certificate(FILETYPE_PEM, pem)] *)
Definition crypto_load_certificate (pem : string) : M X509 :=
  emit (EvLoadCertificate pem) ;;; lift (parse_certificate pem).

(** [client.auth.approle.login(role, secret, mount_point=mp)]: on success
    the client holds the token the server issued. *)
Definition auth_approle_login (c : Client) (role secret mp : string) : M Client :=
  emit (EvApproleLogin (client_token c) role secret mp) ;;;
  match approle_login w role secret mp with
  | Some t => ret {| url := url c; session := session c; client_token := Some t |}
  | None => raise (VaultError "approle.login")
  end.

(** [client.auth.jwt.jwt_login(role, jwt, path=p)] *)
Definition auth_jwt_login (c : Client) (role jwt : string) (p : option string)
  : M Client :=
  emit (EvJwtLogin (client_token c) role jwt p) ;;;
  match jwt_login w role jwt p with
  | Some t => ret {| url := url c; session := session c; client_token := Some t |}
  | None => raise (VaultError "jwt.jwt_login")
  end.

(** [client.is_authenticated()]: false without a token (none, or an
    empty one); else a lookup of the token, true when it goes through,
    false when the server turns the token down, and the error of the
    lookup in any other case. *)
Definition client_is_authenticated (c : Client) : M bool :=
  emit (EvIsAuthenticated (client_token c)) ;;;
  if Py.truthy (client_token c) then
    match token_valid w (conf_str (client_token c)) with
    | Some ok => ret ok
    | None => raise (VaultError "lookup_token")
    end
  else ret false.

(** [client.secrets.kv.v2.create_or_update_secret(mount_point, path, secret)] *)
Definition create_or_update_secret (mp : option string) (p : string) (d : Dict)
  : M unit :=
  emit (EvCreateOrUpdateSecret mp p d) ;;;
  if store_accepts w mp p d then ret tt
  else raise (VaultError "create_or_update_secret").

(** [VaultInstaller.__init__], its first statements: the session. *)
Definition init_session (c : Conf) : Session :=
  let ca_certs :=
    if Py.truthy (tls_cacert c) then Some (MkPath (conf_str (tls_cacert c)))
    else None in
  if Py.truthy (tls_server_name c)
  then get_session_for_server_name (conf_str (tls_server_name c)) ca_certs
  else new_Session.

(** [VaultInstaller.__init__] *)
Definition __init__ (c : Conf) : M VaultInstaller :=
  let session := init_session c in
  let client := {| url := addr c; session := session;
                   client_token := default_token w |} in
  let client :=
    if Py.truthy (token c)
    then {| url := url client; session := Plugin.session client;
            client_token := token c |}
    else client in
  client <- (if Py.truthy (role_id c) && Py.truthy (secret_id c)
             then
               let auth_mount_point := Py.or_default (auth_path c) "approle" in
               auth_approle_login client (conf_str (role_id c))
                                  (conf_str (secret_id c)) auth_mount_point
             else ret client) ;;
  client <- (if Py.truthy (jwt_role c) && Py.truthy (jwt_key c)
             then auth_jwt_login client (conf_str (jwt_role c))
                                 (conf_str (jwt_key c)) (auth_path c)
             else ret client) ;;
  ret {| conf := c; hvac_client := client |}.

(** [VaultInstaller.prepare] *)
Definition prepare (self : VaultInstaller) : M unit :=
  ok <- client_is_authenticated (hvac_client self) ;;
  if negb ok then raise (PluginError "Not authenticated") else ret tt.

(** [int(datetime.strptime(text, date_format).timestamp())]: both
    [strptime] and [timestamp] can raise a [ValueError]. *)
Definition asn1_timestamp (text : string) : M Z :=
  match PyDatetime.strptime text with
  | Some d =>
      match PyDatetime.timestamp (utcoffset w) d with
      | Some seconds => ret seconds
      | None => raise (ValueError "year out of range")
      end
  | None => raise (ValueError text)
  end.

(** The inner loop of [deploy_cert]: the rows of one extension's text. *)
Definition san_rows (sub : string) : list string :=
  map Py.strip (Py.split "," sub).

Definition append_dns_rows (domains : list string) (rows : list string)
  : list string :=
  fold_left
    (fun ds row =>
       if Py.startswith "DNS:" row
       then (ds ++ [Py.slice_from (String.length "DNS:") row])%list
       else ds)
    rows domains.

(** The outer loop of [deploy_cert], over the extensions in index order. *)
Definition collect_domains (cert : X509) : list string :=
  fold_left
    (fun ds ext =>
       if Py.contains "subjectAltName" (Py.str_bytes (get_short_name ext))
       then append_dns_rows ds (san_rows (_subjectAltNameString ext))
       else ds)
    (extensions cert) [].

(** [VaultInstaller.deploy_cert] *)
Definition deploy_cert (self : VaultInstaller)
    (domain cert_path key_path chain_path fullchain_path : string) : M unit :=
  cert <- open_read cert_path ;;
  openssl_cert <- crypto_load_certificate cert ;;
  key <- open_read key_path ;;
  chain <- open_read fullchain_path ;;
  let serial := Py.str_int (get_serial_number openssl_cert) in
  issued <- asn1_timestamp (get_notBefore openssl_cert) ;;
  expires <- asn1_timestamp (get_notAfter openssl_cert) ;;
  let data : Dict :=
    [ ("type", JStr "urn:scheme:type:certificate");
      ("cert", JStr cert);
      ("key", JStr key);
      ("chain", JStr chain);
      ("serial", JStr serial);
      ("life", JDict [("issued", JInt issued); ("expires", JInt expires)]) ] in
  let domains := collect_domains openssl_cert in
  let data :=
    match domains with
    | [] => data
    | _ :: _ => dict_set data "domains" (JList (map JStr domains))
    end in
  let int_path :=
    if Py.truthy (path (conf self))
    then os_path_join w (conf_str (path (conf self))) domain
    else domain in
  create_or_update_secret (mount (conf self)) int_path data.


(** A host that prepares the plugin and then deploys, an exception of
    [prepare] ending the run. *)
Definition prepare_then_deploy (self : VaultInstaller)
    (domain cert_path key_path chain_path fullchain_path : string) : M unit :=
  prepare self ;;;
  deploy_cert self domain cert_path key_path chain_path fullchain_path.

End WithWorld.

End Plugin.

(* ------------------------------------------------------------------ *)
(** ** Observations on a run, and the terms of the specification *)

Module Obs.

Import Requests X509 Plugin.

(** The writes a trace holds, and the files it opened, in order. *)
Definition written (t : list Event) : list (option string * string * Dict) :=
  flat_map (fun ev => match ev with
                      | EvCreateOrUpdateSecret m p d => [(m, p, d)]
                      | _ => []
                      end) t.

Definition opened (t : list Event) : list string :=
  flat_map (fun ev => match ev with EvOpen p => [p] | _ => [] end) t.

(** The same surroundings with another file system. *)
Definition with_files (w : World) (files : string -> option string) : World :=
  {| read_file := files;
     decode := decode w;
     load_certificate := load_certificate w;
     utcoffset := utcoffset w;
     os_path_join := os_path_join w;
     approle_login := approle_login w;
     jwt_login := jwt_login w;
     token_valid := token_valid w;
     store_accepts := store_accepts w;
     default_token := default_token w |}.

(** The specification's terms. The DNS-type entries of an extension, in
    the order of the extension. *)
Definition spec_dns_entries (names : list GeneralName) : list string :=
  flat_map (fun n => match n with GEN_DNS v => [v] | _ => [] end) names.

(** Whether [deploy_cert] takes an extension for the alternative names. *)
Definition is_san (e : X509Extension) : bool :=
  Py.contains "subjectAltName" (Py.str_bytes (get_short_name e)).

(** An entry whose text survives the splitting of [deploy_cert]: a
    7-bit text with no comma in it, no white space at its ends, and, for
    a type printed by OpenSSL, a label other than [DNS]. *)
Fixpoint has_char (c : ascii) (s : string) : bool :=
  match s with
  | EmptyString => false
  | String a rest => Ascii.eqb a c || has_char c rest
  end.

Definition plain_name (n : GeneralName) : Prop :=
  Py.ascii7 (name_part n) = true /\
  has_char "," (name_part n) = false /\
  Py.strip (name_part n) = name_part n /\
  match n with
  | GEN_OTHER s => Py.startswith "DNS:" s = false
  | _ => True
  end.

(** The specification's secret path: the base path, a slash and the
    domain when a base path is configured, the domain otherwise. *)
Definition spec_secret_path (base : option string) (domain : string) : string :=
  match base with
  | Some b => b ++ "/" ++ domain
  | None => domain
  end.

(** The specification's timestamp: the validity text read as a UTC
    instant, in seconds since the epoch. *)
Definition spec_utc_epoch (text : string) : option Z :=
  option_map PyDatetime.seconds_since_epoch (PyDatetime.strptime text).

(** The two values [deploy_cert] computes before the write: the payload
    and the path. *)
Definition payload_of (cert key chain : string) (x : X509) (issued expires : Z)
  : Dict :=
  let data : Dict :=
    [ ("type", JStr "urn:scheme:type:certificate");
      ("cert", JStr cert);
      ("key", JStr key);
      ("chain", JStr chain);
      ("serial", JStr (Py.str_int (get_serial_number x)));
      ("life", JDict [("issued", JInt issued); ("expires", JInt expires)]) ] in
  match collect_domains x with
  | [] => data
  | _ :: _ => dict_set data "domains" (JList (map JStr (collect_domains x)))
  end.

Definition int_path_of (w : World) (c : Conf) (domain : string) : string :=
  if Py.truthy (path c) then os_path_join w (conf_str (path c)) domain
  else domain.

(** The seconds [deploy_cert] computes from a validity text, or the
    error it meets. *)
Definition asn1_seconds (w : World) (text : string) : Result Z :=
  outcome (asn1_timestamp w text).

(** The two timestamps of a payload. *)
Definition life_of (d : Dict) : option (Z * Z) :=
  match dict_get d "life" with
  | Some (JDict l) =>
      match dict_get l "issued", dict_get l "expires" with
      | Some (JInt i), Some (JInt e) => Some (i, e)
      | _, _ => None
      end
  | _ => None
  end.

End Obs.

(* ------------------------------------------------------------------ *)
(** ** Concrete surroundings for the examples *)

Module Sample.

Import Requests X509 Plugin.

Fixpoint assoc {A} (l : list (string * A)) (k : string) : option A :=
  match l with
  | [] => None
  | (k', v) :: rest => if String.eqb k' k then Some v else assoc rest k
  end.

(** The codec of an ASCII locale: the 7-bit contents, as they are. *)
Definition ascii_codec (raw : string) : option string :=
  if Py.ascii7 raw then Some raw else None.

(** A POSIX host with an ASCII locale, and a Vault that issues
    [s.approle] and [s.jwt] on login, knows the token [s.valid], and takes
    every write. *)
Definition world (files : list (string * string)) (pems : list (string * X509))
    (tz : Z -> Z) : World :=
  {| read_file := assoc files;
     decode := ascii_codec;
     load_certificate := assoc pems;
     utcoffset := tz;
     os_path_join := Py.posixpath_join;
     approle_login := fun _ _ _ => Some "s.approle";
     jwt_login := fun _ _ _ => Some "s.jwt";
     token_valid := fun t => Some (String.eqb t "s.valid");
     store_accepts := fun _ _ _ => true;
     default_token := None |}.

(** The same, with a Vault that refuses every write. *)
Definition refusing (w : World) : World :=
  {| read_file := read_file w;
     decode := decode w;
     load_certificate := load_certificate w;
     utcoffset := utcoffset w;
     os_path_join := os_path_join w;
     approle_login := approle_login w;
     jwt_login := jwt_login w;
     token_valid := token_valid w;
     store_accepts := fun _ _ _ => false;
     default_token := default_token w |}.

Definition utc : Z -> Z := fun _ => 0.

(** Central European Time without summer time: one hour east of UTC. *)
Definition cet : Z -> Z := fun _ => 3600.

(** US Eastern time around 10 March 2024: five hours west of UTC until
    07:00 UTC of that day, four hours west from then on. *)
Definition new_york_2024 : Z -> Z :=
  fun u => if u <? 1710054000 then -18000 else -14400.

Definition san (names : list GeneralName) : X509Extension :=
  {| get_short_name := "subjectAltName"; general_names := names |}.

Definition basic_constraints : X509Extension :=
  {| get_short_name := "basicConstraints"; general_names := [] |}.

Definition leaf : X509 :=
  {| get_serial_number := 340282366920938463463374607431768211455;
     get_notBefore := "20240101000000Z";
     get_notAfter := "20240331000000Z";
     extensions := [basic_constraints;
                    san [GEN_DNS "a.example"; GEN_DNS "b.example"]] |}.

(** A leaf whose only alternative name is a URI with a comma in its path. *)
Definition leaf_uri : X509 :=
  {| get_serial_number := 4097;
     get_notBefore := "20240101000000Z";
     get_notAfter := "20240331000000Z";
     extensions := [san [GEN_URI "https://a.example/x,DNS:b.example"]] |}.

(** A leaf valid for forty-five minutes on the night of 10 March 2024. *)
Definition leaf_short : X509 :=
  {| get_serial_number := 4098;
     get_notBefore := "20240310023000Z";
     get_notAfter := "20240310031500Z";
     extensions := [san [GEN_DNS "a.example"]] |}.

Definition files : list (string * string) :=
  [("/live/cert.pem", "LEAF"); ("/live/privkey.pem", "KEY");
   ("/live/chain.pem", "INTERMEDIATES"); ("/live/fullchain.pem", "LEAF+INTERMEDIATES")].

Definition pems : list (string * X509) := [("LEAF", leaf)].

Definition no_conf : Conf :=
  {| auth_path := None; token := None; role_id := None; secret_id := None;
     jwt_role := None; jwt_key := None; addr := Some "https://10.0.0.5:8200";
     tls_server_name := None; tls_cacert := None;
     mount := Some "secret"; path := None |}.

Definition with_token (c : Conf) (t : string) : Conf :=
  {| auth_path := auth_path c; token := Some t; role_id := role_id c;
     secret_id := secret_id c; jwt_role := jwt_role c; jwt_key := jwt_key c;
     addr := addr c; tls_server_name := tls_server_name c;
     tls_cacert := tls_cacert c; mount := mount c; path := path c |}.

Definition with_approle (c : Conf) (r s : string) : Conf :=
  {| auth_path := auth_path c; token := token c; role_id := Some r;
     secret_id := Some s; jwt_role := jwt_role c; jwt_key := jwt_key c;
     addr := addr c; tls_server_name := tls_server_name c;
     tls_cacert := tls_cacert c; mount := mount c; path := path c |}.

Definition with_cacert (c : Conf) (ca : string) : Conf :=
  {| auth_path := auth_path c; token := token c; role_id := role_id c;
     secret_id := secret_id c; jwt_role := jwt_role c; jwt_key := jwt_key c;
     addr := addr c; tls_server_name := tls_server_name c;
     tls_cacert := Some ca; mount := mount c; path := path c |}.

Definition with_server_name (c : Conf) (n : string) : Conf :=
  {| auth_path := auth_path c; token := token c; role_id := role_id c;
     secret_id := secret_id c; jwt_role := jwt_role c; jwt_key := jwt_key c;
     addr := addr c; tls_server_name := Some n;
     tls_cacert := tls_cacert c; mount := mount c; path := path c |}.

Definition with_path (c : Conf) (p : string) : Conf :=
  {| auth_path := auth_path c; token := token c; role_id := role_id c;
     secret_id := secret_id c; jwt_role := jwt_role c; jwt_key := jwt_key c;
     addr := addr c; tls_server_name := tls_server_name c;
     tls_cacert := tls_cacert c; mount := mount c; path := Some p |}.

(** An installer holding the given token over a default session. *)
Definition installer (c : Conf) (tok : option string) : VaultInstaller :=
  {| conf := c;
     hvac_client := {| url := addr c; session := new_Session;
                       client_token := tok |} |}.

End Sample.

(* ------------------------------------------------------------------ *)
(** ** Further observations and surroundings *)

Module Cases.

Import Requests X509 Plugin.

Definition is_jwt_login (ev : Event) : bool :=
  match ev with EvJwtLogin _ _ _ _ => true | _ => false end.

Definition is_auth_check (ev : Event) : bool :=
  match ev with EvIsAuthenticated _ => true | _ => false end.

Definition is_some {A} (o : option A) : bool :=
  match o with Some _ => true | None => false end.

(** What the readiness check of a client comes to: [Some true] when the
    client holds a token and its lookup goes through, [Some false]
    without a token or when the server turns the token down, [None] when
    the lookup raises. *)
Definition readiness (w : World) (c : Client) : option bool :=
  if Py.truthy (client_token c)
  then token_valid w (conf_str (client_token c))
  else Some false.

(** The token a client holds after the static token was looked at. *)
Definition static_token (w : World) (c : Conf) : option string :=
  if Py.truthy (token c) then token c else default_token w.

(** The keys of a payload, in insertion order. *)
Definition keys (d : Dict) : list string := map fst d.

(** The same surroundings with a Vault that refuses the approle login. *)
Definition approle_refused (w : World) : World :=
  {| read_file := read_file w;
     decode := decode w;
     load_certificate := load_certificate w;
     utcoffset := utcoffset w;
     os_path_join := os_path_join w;
     approle_login := fun _ _ _ => None;
     jwt_login := jwt_login w;
     token_valid := token_valid w;
     store_accepts := store_accepts w;
     default_token := default_token w |}.

Definition with_jwt (c : Conf) (r k : string) : Conf :=
  {| auth_path := auth_path c; token := token c; role_id := role_id c;
     secret_id := secret_id c; jwt_role := Some r; jwt_key := Some k;
     addr := addr c; tls_server_name := tls_server_name c;
     tls_cacert := tls_cacert c; mount := mount c; path := path c |}.

Definition with_auth_path (c : Conf) (p : string) : Conf :=
  {| auth_path := Some p; token := token c; role_id := role_id c;
     secret_id := secret_id c; jwt_role := jwt_role c; jwt_key := jwt_key c;
     addr := addr c; tls_server_name := tls_server_name c;
     tls_cacert := tls_cacert c; mount := mount c; path := path c |}.


(** A leaf with mixed alternative names, among other extensions. *)
Definition leaf_mixed : X509 :=
  {| get_serial_number := 4100;
     get_notBefore := "20240101000000Z";
     get_notAfter := "20240331000000Z";
     extensions :=
       [Sample.basic_constraints;
        Sample.san [GEN_DNS "a.example"; GEN_OTHER "IP Address:10.0.0.1";
                    GEN_EMAIL "ops@a.example"; GEN_DNS "*.b.example";
                    GEN_URI "https://a.example/"]] |}.

(** The same surroundings with a Vault that cannot be reached for the
    lookup of a token. *)
Definition lookup_fails (w : World) : World :=
  {| read_file := read_file w;
     decode := decode w;
     load_certificate := load_certificate w;
     utcoffset := utcoffset w;
     os_path_join := os_path_join w;
     approle_login := approle_login w;
     jwt_login := jwt_login w;
     token_valid := fun _ => None;
     store_accepts := store_accepts w;
     default_token := default_token w |}.

(** A full chain with CR LF line ends, and what a text-mode read makes
    of it. *)
Definition crlf_chain : string :=
  "LEAF" ++ String Py.CR (String Py.LF ("INTERMEDIATES"
         ++ String Py.CR (String Py.LF EmptyString))).

Definition lf_chain : string :=
  "LEAF" ++ String Py.LF ("INTERMEDIATES" ++ String Py.LF EmptyString).

Definition crlf_files : list (string * string) :=
  [("/live/cert.pem", "LEAF"); ("/live/privkey.pem", "KEY");
   ("/live/chain.pem", "INTERMEDIATES"); ("/live/fullchain.pem", crlf_chain)].

(** A leaf that expires in the last second of the year 9999. *)
Definition leaf_forever : X509 :=
  {| get_serial_number := 4101;
     get_notBefore := "20240101000000Z";
     get_notAfter := "99991231235959Z";
     extensions := [] |}.


Definition midnight (y m d : Z) : PyDatetime.datetime :=
  {| PyDatetime.year := y; PyDatetime.month := m; PyDatetime.day := d;
     PyDatetime.hour := 0; PyDatetime.minute := 0; PyDatetime.second := 0 |}.

End Cases.

(* ------------------------------------------------------------------ *)
(** * Properties *)

Import Requests X509 Plugin Obs.

(** ** The effect monad *)

Lemma trace_bind {A B} (m : M A) (k : A -> M B) :
  trace (bind m k)
  = match outcome m with
    | Raise _ => trace m
    | Return a => (trace m ++ trace (k a))%list
    end.
Proof.
  destruct m as [t [e | a]]; cbn; [reflexivity |].
  destruct (k a); reflexivity.
Qed.

Lemma outcome_bind {A B} (m : M A) (k : A -> M B) :
  outcome (bind m k)
  = match outcome m with
    | Raise e => Raise e
    | Return a => outcome (k a)
    end.
Proof.
  destruct m as [t [e | a]]; cbn; [reflexivity |].
  destruct (k a); reflexivity.
Qed.

Lemma truthy_conf_str (v : option string) :
  Py.truthy v = true -> v = Some (conf_str v).
Proof. destruct v as [[| c s] |]; cbn; congruence. Qed.

(** ** Authentication *)

(** With only a static token configured (no complete approle pair, no
    complete JWT pair) construction makes no call on the server and the
    client holds the configured token. *)
Lemma init_token_only (w : World) (c : Conf) :
  Py.truthy (token c) = true ->
  Py.truthy (role_id c) && Py.truthy (secret_id c) = false ->
  Py.truthy (jwt_role c) && Py.truthy (jwt_key c) = false ->
  trace (__init__ w c) = [] /\
  exists self, outcome (__init__ w c) = Return self
               /\ client_token (hvac_client self) = token c.
Proof.
  intros Ht Ha Hj. unfold __init__. rewrite Ht, Ha, Hj. cbn.
  split; [reflexivity |]. eexists; split; reflexivity.
Qed.

(** C1, as the code has it: when a static token and a role-id/secret-id
    pair are both configured, construction sets the token and then still
    performs the approle login exchange. The login is the first call made
    on the server, it is made by the client while it holds the static
    token, and it goes to auth-path or, by default, to [approle]. When
    the login is refused, construction ends there with its error. When
    it is granted, the token it issued replaces the static one: without
    a JWT pair the client ends up holding it, and with a JWT pair the JWT
    login follows, made by the client holding the token of the approle
    login. *)
Theorem C1_token_and_approle_both_applied (w : World) (c : Conf)
    (Htoken : Py.truthy (token c) = true)
    (Hrole : Py.truthy (role_id c) = true)
    (Hsecret : Py.truthy (secret_id c) = true) :
  let role := conf_str (role_id c) in
  let secret := conf_str (secret_id c) in
  let mount_point := Py.or_default (auth_path c) "approle" in
  let login := EvApproleLogin (token c) role secret mount_point in
  (exists rest, trace (__init__ w c) = login :: rest) /\
  (approle_login w role secret mount_point = None ->
   __init__ w c = ([login], Raise (VaultError "approle.login"))) /\
  (forall issued,
      approle_login w role secret mount_point = Some issued ->
      (Py.truthy (jwt_role c) && Py.truthy (jwt_key c) = false ->
       __init__ w c
       = ([login],
          Return {| conf := c;
                    hvac_client := {| url := addr c;
                                      session := init_session c;
                                      client_token := Some issued |} |})) /\
      (Py.truthy (jwt_role c) && Py.truthy (jwt_key c) = true ->
       trace (__init__ w c)
       = [login;
          EvJwtLogin (Some issued) (conf_str (jwt_role c))
                     (conf_str (jwt_key c)) (auth_path c)])).
Proof.
  cbv zeta. unfold __init__. rewrite Htoken, Hrole, Hsecret. cbn [andb].
  unfold auth_approle_login.
  cbn [url session client_token].
  split; [| split].
  - destruct (approle_login w _ _ _); cbn.
    + destruct (Py.truthy (jwt_role c) && Py.truthy (jwt_key c)); cbn.
      * unfold auth_jwt_login. destruct (jwt_login w _ _ _); cbn; eauto.
      * eauto.
    + eauto.
  - intros Hrefused. rewrite Hrefused. reflexivity.
  - intros issued Hlogin. rewrite Hlogin. split; intros Hjwt; rewrite Hjwt.
    + reflexivity.
    + unfold auth_jwt_login. cbn.
      destruct (jwt_login w _ _ _); reflexivity.
Qed.

Lemma C1_token_and_approle_both_applied_witness :
  let w := Sample.world [] [] Sample.utc in
  let c := Sample.with_approle (Sample.with_token Sample.no_conf "s.static")
                               "role" "secret" in
  exists rest,
    trace (__init__ w c)
    = EvApproleLogin (Some "s.static") "role" "secret" "approle" :: rest.
Proof.
  cbv zeta.
  apply (C1_token_and_approle_both_applied
           (Sample.world [] [] Sample.utc)
           (Sample.with_approle (Sample.with_token Sample.no_conf "s.static")
                                "role" "secret")
           eq_refl eq_refl eq_refl).
Defined.

(** C1 as stated fails: with the token [s.static] and the pair
    [role]/[secret] configured, construction performs an approle login. *)
Lemma C1_approle_login_despite_token :
  let w := Sample.world [] [] Sample.utc in
  let c := Sample.with_approle (Sample.with_token Sample.no_conf "s.static")
                               "role" "secret" in
  Py.truthy (token c) = true /\
  Py.truthy (role_id c) = true /\
  Py.truthy (secret_id c) = true /\
  existsb is_approle_login (trace (__init__ w c)) = true.
Proof. cbv zeta. repeat split; reflexivity. Qed.

(** ** The session *)

Ltac init_cases w c :=
  unfold __init__, auth_approle_login, auth_jwt_login;
  destruct (Py.truthy (token c));
  destruct (Py.truthy (role_id c) && Py.truthy (secret_id c));
  destruct (Py.truthy (jwt_role c) && Py.truthy (jwt_key c));
  cbn;
  repeat match goal with
         | |- context [approle_login ?w ?a ?b ?m] =>
             destruct (approle_login w a b m); cbn
         | |- context [jwt_login ?w ?a ?b ?m] =>
             destruct (jwt_login w a b m); cbn
         end.

(** Every client construction hands over the session of [init_session]. *)
Lemma init_keeps_session (w : World) (c : Conf) (self : VaultInstaller) :
  outcome (__init__ w c) = Return self ->
  session (hvac_client self) = init_session c.
Proof. init_cases w c; intros H; inversion H; reflexivity. Qed.

(** With a server name configured, the [https://] adapter of the session
    hands that name to its pool manager and, when a CA bundle is
    configured, that bundle. *)
Lemma init_session_with_server_name (c : Conf) :
  Py.truthy (tls_server_name c) = true ->
  https_kwargs (init_session c)
  = Some {| server_hostname := Some (conf_str (tls_server_name c));
            ca_certs_kw := if Py.truthy (tls_cacert c)
                           then Some (MkPath (conf_str (tls_cacert c)))
                           else None |}.
Proof.
  intros Hn. unfold init_session. rewrite Hn.
  destruct (Py.truthy (tls_cacert c)); reflexivity.
Qed.

(** Without a server name the session is the library's default one,
    whatever [tls-cacert] says. *)
Lemma init_session_without_server_name (c : Conf) :
  Py.truthy (tls_server_name c) = false ->
  https_kwargs (init_session c)
  = Some {| server_hostname := None; ca_certs_kw := None |}.
Proof. intros Hn. unfold init_session. rewrite Hn. reflexivity. Qed.

(** C2 at a failing input: with [tls-cacert] set to [/etc/vault/ca.pem]
    and no [tls-server-name], the constructed client's session carries no
    CA bundle: it validates with the default trust roots. *)
Theorem C2_cacert_dropped_without_server_name :
  let w := Sample.world [] [] Sample.utc in
  let c := Sample.with_cacert (Sample.with_token Sample.no_conf "s.valid")
                              "/etc/vault/ca.pem" in
  Py.truthy (tls_cacert c) = true /\
  exists self,
    outcome (__init__ w c) = Return self /\
    https_kwargs (session (hvac_client self))
    = Some {| server_hostname := None; ca_certs_kw := None |}.
Proof.
  cbv zeta. split; [reflexivity |]. eexists; split; reflexivity.
Qed.

(** ** [deploy_cert], step by step *)

Ltac step := cbn [bind emit ret raise lift app].

Lemma asn1_timestamp_seconds (w : World) (text : string) :
  asn1_timestamp w text = ([], asn1_seconds w text).
Proof.
  unfold asn1_seconds, asn1_timestamp.
  destruct (PyDatetime.strptime text) as [d |]; [| reflexivity].
  destruct (PyDatetime.timestamp (utcoffset w) d); reflexivity.
Qed.

(** The seconds of a validity text are there exactly when [strptime]
    takes the text and [timestamp] the result. *)
Lemma asn1_seconds_return (w : World) (text : string) (s : Z) :
  asn1_seconds w text = Return s <->
  exists d, PyDatetime.strptime text = Some d
            /\ PyDatetime.timestamp (utcoffset w) d = Some s.
Proof.
  unfold asn1_seconds, asn1_timestamp.
  destruct (PyDatetime.strptime text) as [d |]; cbn.
  - destruct (PyDatetime.timestamp (utcoffset w) d) as [s' |] eqn:Hs; cbn.
    + split.
      * intros [= <-]. eauto.
      * intros (d' & [= <-] & Hd). congruence.
    + split; [discriminate |]. intros (d' & [= <-] & Hd). congruence.
  - split; [discriminate |]. intros (d' & Hd & _). discriminate.
Qed.

(** The run of [deploy_cert] in terms of what its surroundings answer:
    the certificate file is read and parsed, then the key and the full
    chain are read, then the two validity bounds are converted, then the
    write is issued. *)
Lemma deploy_cert_run (w : World) (self : VaultInstaller)
    (domain cert_path key_path chain_path fullchain_path : string) :
  deploy_cert w self domain cert_path key_path chain_path fullchain_path
  = match file_text w cert_path with
    | Raise e => ([EvOpen cert_path], Raise e)
    | Return cert =>
    match parse_certificate w cert with
    | Raise e => ([EvOpen cert_path; EvLoadCertificate cert], Raise e)
    | Return x =>
    match file_text w key_path with
    | Raise e => ([EvOpen cert_path; EvLoadCertificate cert; EvOpen key_path],
                  Raise e)
    | Return key =>
    let reads := [EvOpen cert_path; EvLoadCertificate cert; EvOpen key_path;
                  EvOpen fullchain_path] in
    match file_text w fullchain_path with
    | Raise e => (reads, Raise e)
    | Return chain =>
    match asn1_seconds w (get_notBefore x) with
    | Raise e => (reads, Raise e)
    | Return issued =>
    match asn1_seconds w (get_notAfter x) with
    | Raise e => (reads, Raise e)
    | Return expires =>
        let data := payload_of cert key chain x issued expires in
        let p := int_path_of w (conf self) domain in
        ((reads ++ [EvCreateOrUpdateSecret (mount (conf self)) p data])%list,
         if store_accepts w (mount (conf self)) p data then Return tt
         else Raise (VaultError "create_or_update_secret"))
    end end end end end end.
Proof.
  unfold deploy_cert, open_read, crypto_load_certificate,
    create_or_update_secret, payload_of, int_path_of.
  destruct (file_text w cert_path) as [e | cert]; step; [reflexivity |].
  destruct (parse_certificate w cert) as [e | x]; step; [reflexivity |].
  destruct (file_text w key_path) as [e | key]; step; [reflexivity |].
  destruct (file_text w fullchain_path) as [e | chain]; step; [reflexivity |].
  rewrite (asn1_timestamp_seconds w (get_notBefore x)).
  destruct (asn1_seconds w (get_notBefore x)) as [e | issued]; step;
    [reflexivity |].
  rewrite (asn1_timestamp_seconds w (get_notAfter x)).
  destruct (asn1_seconds w (get_notAfter x)) as [e | expires]; step;
    [reflexivity |].
  match goal with
  | |- context [store_accepts ?w ?m ?p ?d] => destruct (store_accepts w m p d)
  end; reflexivity.
Qed.

(** A failed read is the [OSError] of a file that cannot be opened or the
    [UnicodeDecodeError] of bytes that are not a text; a read that goes
    through gives the decoded bytes with their line ends translated. *)
Lemma file_text_cases (w : World) (p : string) :
  match file_text w p with
  | Raise e =>
      (read_file w p = None /\ e = OSError p)
      \/ (exists raw, read_file w p = Some raw /\ decode w raw = None
                      /\ e = UnicodeDecodeError p)
  | Return text =>
      exists raw decoded,
        read_file w p = Some raw /\ decode w raw = Some decoded
        /\ text = Py.universal_newlines decoded
  end.
Proof.
  unfold file_text.
  destruct (read_file w p) as [raw |]; [| left; split; reflexivity].
  destruct (decode w raw) as [decoded |] eqn:Hd.
  - exists raw, decoded. repeat split. exact Hd.
  - right. exists raw. repeat split. exact Hd.
Qed.

(** ** Serial numbers *)

(** [str] of an integer is a decimal numeral of that integer, whatever
    its size. *)
Lemma str_int_roundtrip (n : Z) : Py.int_of_str (Py.str_int n) = Some n.
Proof.
  unfold Py.int_of_str, Py.str_int.
  rewrite NilZero.isi.
  - cbn. now rewrite DecimalZ.of_to.
  - destruct n; cbn; try discriminate.
    intros [= H]. now apply (Unsigned.to_uint_nonnil p).
  - destruct n; cbn; try discriminate.
    intros [= H]. now apply (Unsigned.to_uint_nonnil p).
Qed.

Lemma payload_serial (cert key chain : string) (x : X509) (i e : Z) :
  dict_get (payload_of cert key chain x i e) "serial"
  = Some (JStr (Py.str_int (get_serial_number x))).
Proof. unfold payload_of. destruct (collect_domains x); reflexivity. Qed.

Lemma payload_life (cert key chain : string) (x : X509) (i e : Z) :
  life_of (payload_of cert key chain x i e) = Some (i, e).
Proof. unfold payload_of, life_of. destruct (collect_domains x); reflexivity. Qed.

(** ** Validity bounds *)

(** In a zone with one constant offset, a timestamp that is computed is
    the reading of the naive [datetime] as UTC, moved by the offset. *)
Lemma timestamp_constant_offset (tz : Z -> Z) (off : Z)
    (d : PyDatetime.datetime) (s : Z) :
  (forall u, tz u = off) ->
  PyDatetime.timestamp tz d = Some s ->
  s = PyDatetime.seconds_since_epoch d - off.
Proof.
  intros Htz.
  unfold PyDatetime.timestamp, PyDatetime._mktime, PyDatetime._mktime_rest,
    PyDatetime.local.
  cbv zeta. rewrite !Htz.
  set (t := PyDatetime.seconds_since_epoch d).
  destruct (PyDatetime.in_range (t + off)); cbv beta iota; [| discriminate].
  rewrite !Htz.
  replace (t - (t + off - t) + off) with t by lia.
  destruct (PyDatetime.in_range t); cbv beta iota; [| discriminate].
  rewrite Z.eqb_refl.
  destruct (PyDatetime.in_range _); cbv beta iota; [| discriminate].
  replace (t + off - t =? _) with true
    by (symmetry; apply Z.eqb_eq; lia).
  intros [= <-]. lia.
Qed.

(** In such a zone the timestamp is computed whenever the local reading,
    its reading as UTC and the reading a day earlier all lie in the years
    1 to 9999. *)
Lemma timestamp_constant_offset_defined (tz : Z -> Z) (off : Z)
    (d : PyDatetime.datetime) :
  (forall u, tz u = off) ->
  PyDatetime.in_range (PyDatetime.seconds_since_epoch d) = true ->
  PyDatetime.in_range (PyDatetime.seconds_since_epoch d + off) = true ->
  PyDatetime.in_range (PyDatetime.seconds_since_epoch d - 86400) = true ->
  PyDatetime.timestamp tz d = Some (PyDatetime.seconds_since_epoch d - off).
Proof.
  intros Htz Ht Hlocal Hday.
  unfold PyDatetime.timestamp, PyDatetime._mktime, PyDatetime._mktime_rest,
    PyDatetime.local.
  cbv zeta. rewrite !Htz.
  set (t := PyDatetime.seconds_since_epoch d) in *.
  rewrite Hlocal. cbv beta iota. rewrite !Htz.
  replace (t - (t + off - t) + off) with t by lia.
  rewrite Ht, Z.eqb_refl. cbv beta iota.
  replace (t - (t + off - t) + - PyDatetime.max_fold_seconds + off)
    with (t - 86400) by (unfold PyDatetime.max_fold_seconds; lia).
  rewrite Hday. cbv beta iota.
  replace (t + off - t =? _) with true
    by (symmetry; apply Z.eqb_eq; unfold PyDatetime.max_fold_seconds; lia).
  f_equal. lia.
Qed.

(** On a host whose local time is UTC a computed timestamp is the UTC
    reading. *)
Lemma timestamp_utc (d : PyDatetime.datetime) (s : Z) :
  PyDatetime.timestamp Sample.utc d = Some s ->
  s = PyDatetime.seconds_since_epoch d.
Proof.
  intros H. rewrite (timestamp_constant_offset Sample.utc 0 d s); auto. lia.
Qed.

(** C3 at a failing input: on a host one hour east of UTC, a certificate
    valid from 2024-01-01 00:00:00Z to 2024-03-31 00:00:00Z is deployed
    with [life.issued = 1704063600] and [life.expires = 1711839600], an
    hour before the UTC instants 1704067200 and 1711843200 the two fields
    denote: the text is taken as local time. *)
Theorem C3_validity_read_as_local_time :
  let w := Sample.world Sample.files Sample.pems Sample.cet in
  let self := Sample.installer Sample.no_conf (Some "s.valid") in
  exists data,
    written (trace (deploy_cert w self "example.com" "/live/cert.pem"
                      "/live/privkey.pem" "/live/chain.pem"
                      "/live/fullchain.pem"))
    = [(Some "secret", "example.com", data)] /\
    life_of data = Some (1704063600, 1711839600) /\
    spec_utc_epoch (get_notBefore Sample.leaf) = Some 1704067200 /\
    spec_utc_epoch (get_notAfter Sample.leaf) = Some 1711843200.
Proof.
  cbv zeta. eexists. split; [vm_compute; reflexivity |].
  repeat split; vm_compute; reflexivity.
Qed.

(** C7 at a failing input: on a host on US Eastern time, a certificate
    valid from 2024-03-10 02:30:00Z to 03:15:00Z (the first bound falls in
    the hour the local clock skips that night) is deployed with
    [life.issued = 1710055800] and [life.expires = 1710054900]: issued is
    the later of the two, although the certificate's notBefore precedes
    its notAfter. The serial is the decimal numeral all the same. *)
Theorem C7_issued_after_expires_in_clock_gap :
  let w := Sample.world Sample.files [("LEAF", Sample.leaf_short)]
                        Sample.new_york_2024 in
  let self := Sample.installer Sample.no_conf (Some "s.valid") in
  exists data issued expires nb na,
    written (trace (deploy_cert w self "example.com" "/live/cert.pem"
                      "/live/privkey.pem" "/live/chain.pem"
                      "/live/fullchain.pem"))
    = [(Some "secret", "example.com", data)] /\
    dict_get data "serial" = Some (JStr "4098") /\
    life_of data = Some (issued, expires) /\
    expires < issued /\
    spec_utc_epoch (get_notBefore Sample.leaf_short) = Some nb /\
    spec_utc_epoch (get_notAfter Sample.leaf_short) = Some na /\
    nb < na.
Proof.
  cbv zeta. exists
    (payload_of "LEAF" "KEY" "LEAF+INTERMEDIATES" Sample.leaf_short
                1710055800 1710054900),
    1710055800, 1710054900, 1710037800, 1710040500.
  repeat split; vm_compute; reflexivity.
Qed.

(** ** The readiness gate *)

(** C4: when the readiness check answers "not authenticated", [prepare]
    raises the plugin error [Not authenticated] having made no other
    call; so a run that prepares the plugin before it deploys ends with
    that error, with no file opened and no write issued. (The check is
    made in [prepare], once, not in [deploy_cert].) *)
Theorem C4_prepare_gates_deploy (w : World) (self : VaultInstaller)
    (domain cert_path key_path chain_path fullchain_path : string)
    (Hnot : outcome (client_is_authenticated w (hvac_client self))
            = Return false) :
  let run := prepare_then_deploy w self domain cert_path key_path chain_path
                                 fullchain_path in
  outcome (prepare w self) = Raise (PluginError "Not authenticated") /\
  trace (prepare w self) = [EvIsAuthenticated (client_token (hvac_client self))] /\
  outcome run = Raise (PluginError "Not authenticated") /\
  opened (trace run) = [] /\
  written (trace run) = [].
Proof.
  cbv zeta. unfold prepare_then_deploy, prepare.
  revert Hnot. unfold client_is_authenticated.
  destruct (Py.truthy (client_token (hvac_client self)));
    [destruct (token_valid w _) as [[|] |] |];
    cbn; intros H; try discriminate H; repeat split; reflexivity.
Qed.

Lemma C4_prepare_gates_deploy_witness :
  let w := Sample.world Sample.files Sample.pems Sample.utc in
  let self := Sample.installer Sample.no_conf (Some "s.expired") in
  let run := prepare_then_deploy w self "example.com" "/live/cert.pem"
               "/live/privkey.pem" "/live/chain.pem" "/live/fullchain.pem" in
  outcome (prepare w self) = Raise (PluginError "Not authenticated") /\
  trace (prepare w self) = [EvIsAuthenticated (Some "s.expired")] /\
  outcome run = Raise (PluginError "Not authenticated") /\
  opened (trace run) = [] /\
  written (trace run) = [].
Proof.
  cbv zeta.
  apply (C4_prepare_gates_deploy
           (Sample.world Sample.files Sample.pems Sample.utc)
           (Sample.installer Sample.no_conf (Some "s.expired"))
           "example.com" "/live/cert.pem" "/live/privkey.pem"
           "/live/chain.pem" "/live/fullchain.pem").
  reflexivity.
Defined.

(** ** Unreadable files *)

(** C5, as the code has it: [deploy_cert] reads the certificate file and
    loads the certificate, then reads the key file, then the full-chain
    file. When the read of any of the three fails, no write is issued,
    and the call ends with the error of the first of these steps that
    fails: the error of the read of the certificate file; else the error
    of [load_certificate], the key and the full chain not being opened;
    else the error of the read of the key file, the full chain not being
    opened; else the error of the read of the full-chain file. The error
    of a read is an [OSError] when the file cannot be opened and a
    [UnicodeDecodeError] when its bytes are not a text. *)
Theorem C5_unreadable_file_no_write (w : World) (self : VaultInstaller)
    (domain cert_path key_path chain_path fullchain_path : string)
    (Hfail : (exists e, file_text w cert_path = Raise e)
             \/ (exists e, file_text w key_path = Raise e)
             \/ (exists e, file_text w fullchain_path = Raise e)) :
  let run := deploy_cert w self domain cert_path key_path chain_path
                         fullchain_path in
  written (trace run) = [] /\
  (forall e, file_text w cert_path = Raise e ->
     outcome run = Raise e /\ opened (trace run) = [cert_path]) /\
  (forall cert e,
     file_text w cert_path = Return cert ->
     parse_certificate w cert = Raise e ->
     outcome run = Raise e /\ opened (trace run) = [cert_path]) /\
  (forall cert x e,
     file_text w cert_path = Return cert ->
     parse_certificate w cert = Return x ->
     file_text w key_path = Raise e ->
     outcome run = Raise e /\ opened (trace run) = [cert_path; key_path]) /\
  (forall cert x key e,
     file_text w cert_path = Return cert ->
     parse_certificate w cert = Return x ->
     file_text w key_path = Return key ->
     file_text w fullchain_path = Raise e ->
     outcome run = Raise e
     /\ opened (trace run) = [cert_path; key_path; fullchain_path]) /\
  (forall p e,
     file_text w p = Raise e ->
     (read_file w p = None /\ e = OSError p)
     \/ (exists raw, read_file w p = Some raw /\ decode w raw = None
                     /\ e = UnicodeDecodeError p)).
Proof.
  cbv zeta. rewrite deploy_cert_run.
  split; [| split; [| split; [| split; [| split]]]].
  - destruct (file_text w cert_path) as [e | cert]; [reflexivity |].
    destruct (parse_certificate w cert) as [e | x]; [reflexivity |].
    destruct (file_text w key_path) as [e | key]; [reflexivity |].
    destruct (file_text w fullchain_path) as [e | chain]; [reflexivity |].
    destruct Hfail as [(e & H) | [(e & H) | (e & H)]]; discriminate H.
  - intros e ->. split; reflexivity.
  - intros cert e -> ->. split; reflexivity.
  - intros cert x e -> -> ->. split; reflexivity.
  - intros cert x key e -> -> -> ->. split; reflexivity.
  - intros p e H. pose proof (file_text_cases w p) as Hc.
    rewrite H in Hc. exact Hc.
Qed.

Lemma C5_unreadable_file_no_write_witness :
  let w := Sample.world [("/live/cert.pem", "LEAF")] Sample.pems Sample.utc in
  let self := Sample.installer Sample.no_conf (Some "s.valid") in
  let run := deploy_cert w self "example.com" "/live/cert.pem"
               "/live/privkey.pem" "/live/chain.pem" "/live/fullchain.pem" in
  written (trace run) = [] /\
  outcome run = Raise (OSError "/live/privkey.pem") /\
  opened (trace run) = ["/live/cert.pem"; "/live/privkey.pem"].
Proof.
  cbv zeta.
  destruct (C5_unreadable_file_no_write
              (Sample.world [("/live/cert.pem", "LEAF")] Sample.pems Sample.utc)
              (Sample.installer Sample.no_conf (Some "s.valid"))
              "example.com" "/live/cert.pem" "/live/privkey.pem"
              "/live/chain.pem" "/live/fullchain.pem")
    as (Hnone & _ & _ & Hkey & _).
  - right; left. exists (OSError "/live/privkey.pem"). reflexivity.
  - split; [exact Hnone |].
    apply (Hkey "LEAF" Sample.leaf); reflexivity.
Defined.

(** C5 as stated fails: with a readable but malformed certificate file
    and no key file, [deploy_cert] ends with the parse error, raised
    before the key file is opened. *)
Lemma C5_parse_error_with_unreadable_key :
  let w := Sample.world [("/live/cert.pem", "not a certificate");
                         ("/live/fullchain.pem", "LEAF+INTERMEDIATES")]
                        Sample.pems Sample.utc in
  let self := Sample.installer Sample.no_conf (Some "s.valid") in
  read_file w "/live/privkey.pem" = None /\
  deploy_cert w self "example.com" "/live/cert.pem" "/live/privkey.pem"
              "/live/chain.pem" "/live/fullchain.pem"
  = ([EvOpen "/live/cert.pem"; EvLoadCertificate "not a certificate"],
     Raise CryptoError).
Proof. cbv zeta. split; reflexivity. Qed.

(** ** The secret path *)

(** The writes of a deploy call: none, or the one of the last step. *)
Lemma deploy_cert_written (w : World) (self : VaultInstaller)
    (domain cert_path key_path chain_path fullchain_path : string)
    (m : option string) (p : string) (data : Dict) :
  In (m, p, data)
     (written (trace (deploy_cert w self domain cert_path key_path chain_path
                                  fullchain_path))) ->
  m = mount (conf self) /\ p = int_path_of w (conf self) domain /\
  exists cert key chain x issued expires,
    file_text w cert_path = Return cert /\
    parse_certificate w cert = Return x /\
    file_text w key_path = Return key /\
    file_text w fullchain_path = Return chain /\
    asn1_seconds w (get_notBefore x) = Return issued /\
    asn1_seconds w (get_notAfter x) = Return expires /\
    data = payload_of cert key chain x issued expires.
Proof.
  rewrite deploy_cert_run.
  destruct (file_text w cert_path) as [e | cert] eqn:Hc; [now cbn |].
  destruct (parse_certificate w cert) as [e | x] eqn:Hx; [now cbn |].
  destruct (file_text w key_path) as [e | key] eqn:Hk; [now cbn |].
  destruct (file_text w fullchain_path) as [e | chain] eqn:Hf; [now cbn |].
  destruct (asn1_seconds w (get_notBefore x)) as [e | issued] eqn:Hnb;
    [now cbn |].
  destruct (asn1_seconds w (get_notAfter x)) as [e | expires] eqn:Hna;
    [now cbn |].
  cbn. intros [[= <- <- <-] | []].
  split; [reflexivity |]. split; [reflexivity |].
  exists cert, key, chain, x, issued, expires. repeat split; assumption.
Qed.

(** When every step before it succeeds, the write is issued. *)
Lemma deploy_cert_writes (w : World) (self : VaultInstaller)
    (domain cert_path key_path chain_path fullchain_path : string)
    (cert key chain : string) (x : X509) (issued expires : Z) :
  file_text w cert_path = Return cert ->
  parse_certificate w cert = Return x ->
  file_text w key_path = Return key ->
  file_text w fullchain_path = Return chain ->
  asn1_seconds w (get_notBefore x) = Return issued ->
  asn1_seconds w (get_notAfter x) = Return expires ->
  written (trace (deploy_cert w self domain cert_path key_path chain_path
                              fullchain_path))
  = [(mount (conf self), int_path_of w (conf self) domain,
      payload_of cert key chain x issued expires)].
Proof.
  intros Hc Hx Hk Hf Hnb Hna.
  rewrite deploy_cert_run, Hc, Hx, Hk, Hf, Hnb, Hna. reflexivity.
Qed.

(** [posixpath.join] puts one slash between a non-empty base that does
    not end with one and a name that does not begin with one. *)
Lemma posixpath_join_plain (b d : string) :
  b <> EmptyString -> Py.endswith_char "/" b = false ->
  Py.startswith "/" d = false ->
  Py.posixpath_join b d = b ++ "/" ++ d.
Proof.
  intros Hb He Hd. unfold Py.posixpath_join. rewrite Hd, He.
  destruct b; [congruence | reflexivity].
Qed.

Lemma posixpath_join_trailing_slash (b d : string) :
  Py.endswith_char "/" b = true -> Py.startswith "/" d = false ->
  Py.posixpath_join b d = b ++ d.
Proof.
  intros He Hd. unfold Py.posixpath_join. rewrite Hd, He.
  now rewrite orb_true_r.
Qed.

(** C8, as the code has it: on a POSIX host, every write of a deploy call
    for a domain that does not begin with a slash goes to the configured
    mount, and to the base path, a slash and the domain when a non-empty
    base path that does not end with a slash is configured; to the base
    path followed by the domain, with no second slash, when the base path
    ends with a slash; and to the domain when no base path, or an empty
    one, is configured. *)
Theorem C8_secret_path (w : World) (self : VaultInstaller)
    (domain cert_path key_path chain_path fullchain_path : string)
    (m : option string) (p : string) (data : Dict)
    (Hposix : forall a b, os_path_join w a b = Py.posixpath_join a b)
    (Hdomain : Py.startswith "/" domain = false)
    (Hwrite : In (m, p, data)
                 (written (trace (deploy_cert w self domain cert_path key_path
                                              chain_path fullchain_path)))) :
  m = mount (conf self) /\
  (Py.truthy (path (conf self)) = false -> p = domain) /\
  (forall b, path (conf self) = Some b -> b <> EmptyString ->
             Py.endswith_char "/" b = false ->
             p = spec_secret_path (Some b) domain) /\
  (forall b, path (conf self) = Some b ->
             Py.endswith_char "/" b = true ->
             p = b ++ domain).
Proof.
  apply deploy_cert_written in Hwrite as (-> & -> & _).
  unfold int_path_of. rewrite Hposix.
  split; [reflexivity |].
  split; [intros ->; reflexivity |].
  assert (Hjoin : forall b, path (conf self) = Some b -> b <> EmptyString ->
            (if Py.truthy (path (conf self))
             then Py.posixpath_join (conf_str (path (conf self))) domain
             else domain) = Py.posixpath_join b domain).
  { intros b -> Hb. destruct b; [congruence | reflexivity]. }
  split.
  - intros b Hp Hb He. rewrite (Hjoin b Hp Hb).
    now apply posixpath_join_plain.
  - intros b Hp He.
    assert (Hb : b <> EmptyString) by (intros ->; discriminate He).
    rewrite (Hjoin b Hp Hb). now apply posixpath_join_trailing_slash.
Qed.

Lemma C8_secret_path_witness :
  let w := Sample.world Sample.files Sample.pems Sample.utc in
  let self := Sample.installer (Sample.with_path Sample.no_conf "certs")
                               (Some "s.valid") in
  let data := payload_of "LEAF" "KEY" "LEAF+INTERMEDIATES" Sample.leaf
                         1704067200 1711843200 in
  In (Some "secret", "certs/example.com", data)
     (written (trace (deploy_cert w self "example.com" "/live/cert.pem"
                        "/live/privkey.pem" "/live/chain.pem"
                        "/live/fullchain.pem"))) /\
  "certs/example.com" = spec_secret_path (Some "certs") "example.com".
Proof.
  cbv zeta.
  assert (Hwrite :
    In (Some "secret", "certs/example.com",
        payload_of "LEAF" "KEY" "LEAF+INTERMEDIATES" Sample.leaf
                   1704067200 1711843200)
       (written (trace (deploy_cert
          (Sample.world Sample.files Sample.pems Sample.utc)
          (Sample.installer (Sample.with_path Sample.no_conf "certs")
                            (Some "s.valid"))
          "example.com" "/live/cert.pem" "/live/privkey.pem"
          "/live/chain.pem" "/live/fullchain.pem")))).
  { vm_compute. left. reflexivity. }
  split; [exact Hwrite |].
  destruct (C8_secret_path
              (Sample.world Sample.files Sample.pems Sample.utc)
              (Sample.installer (Sample.with_path Sample.no_conf "certs")
                                (Some "s.valid"))
              "example.com" "/live/cert.pem" "/live/privkey.pem"
              "/live/chain.pem" "/live/fullchain.pem" _ _ _
              (fun a b => eq_refl) eq_refl Hwrite)
    as (_ & _ & Hplain & _).
  apply (Hplain "certs"); [reflexivity | discriminate | reflexivity].
Defined.

(** C8 as stated fails: with the base path [certs/] the write for
    [example.com] goes to [certs/example.com], which is not the base
    path, a slash and the domain. *)
Lemma C8_base_path_with_trailing_slash :
  let w := Sample.world Sample.files Sample.pems Sample.utc in
  let self := Sample.installer (Sample.with_path Sample.no_conf "certs/")
                               (Some "s.valid") in
  map (fun e => snd (fst e))
      (written (trace (deploy_cert w self "example.com" "/live/cert.pem"
                         "/live/privkey.pem" "/live/chain.pem"
                         "/live/fullchain.pem")))
  = ["certs/example.com"] /\
  spec_secret_path (path (conf self)) "example.com" = "certs//example.com" /\
  "certs/example.com" <> spec_secret_path (path (conf self)) "example.com".
Proof.
  cbv zeta. split; [vm_compute; reflexivity |].
  split; [reflexivity | discriminate].
Qed.

(** ** The payload's file contents *)

Lemma payload_files (cert key chain : string) (x : X509) (i e : Z) :
  let data := payload_of cert key chain x i e in
  dict_get data "type" = Some (JStr "urn:scheme:type:certificate") /\
  dict_get data "cert" = Some (JStr cert) /\
  dict_get data "key" = Some (JStr key) /\
  dict_get data "chain" = Some (JStr chain).
Proof.
  cbv zeta. unfold payload_of.
  destruct (collect_domains x); repeat split; reflexivity.
Qed.

(** A text without CR has no line end to translate. *)
Lemma universal_newlines_without_cr (s : string) :
  has_char Py.CR s = false -> Py.universal_newlines s = s.
Proof.
  induction s as [| c s IH]; [reflexivity |].
  cbn [has_char Py.universal_newlines]. intros H.
  apply orb_false_elim in H as [Hc Hs].
  rewrite Hc, (IH Hs). reflexivity.
Qed.

(** C9, as the code has it: for every write a deploy call issues, the
    [cert], [key] and [chain] fields of the payload are the texts of the
    certificate file, the key file and the full-chain file (so the chain
    field is not the text of the chain file whenever that one differs
    from the full chain's), where the text of a file is what a text-mode
    read gives: its bytes, decoded, with every CR LF and every other CR
    turned into LF. The text is the content of the file as it is
    whenever the bytes decode to themselves and hold no CR. *)
Theorem C9_payload_holds_file_texts (w : World) (self : VaultInstaller)
    (domain cert_path key_path chain_path fullchain_path : string)
    (m : option string) (p : string) (data : Dict)
    (Hwrite : In (m, p, data)
                 (written (trace (deploy_cert w self domain cert_path key_path
                                              chain_path fullchain_path)))) :
  (exists cert key chain,
     file_text w cert_path = Return cert /\
     file_text w key_path = Return key /\
     file_text w fullchain_path = Return chain /\
     dict_get data "cert" = Some (JStr cert) /\
     dict_get data "key" = Some (JStr key) /\
     dict_get data "chain" = Some (JStr chain) /\
     (forall intermediates,
         file_text w chain_path = Return intermediates ->
         intermediates <> chain ->
         dict_get data "chain" <> Some (JStr intermediates))) /\
  (forall q text,
      file_text w q = Return text ->
      exists raw decoded,
        read_file w q = Some raw /\ decode w raw = Some decoded
        /\ text = Py.universal_newlines decoded) /\
  (forall q raw,
      read_file w q = Some raw -> decode w raw = Some raw ->
      has_char Py.CR raw = false ->
      file_text w q = Return raw).
Proof.
  apply deploy_cert_written in Hwrite
    as (_ & _ & cert & key & chain & x & issued & expires
        & Hc & _ & Hk & Hf & _ & _ & ->).
  destruct (payload_files cert key chain x issued expires)
    as (_ & Hpc & Hpk & Hpf).
  split; [| split].
  - exists cert, key, chain. repeat split; try assumption.
    intros intermediates _ Hne. rewrite Hpf. congruence.
  - intros q text H. pose proof (file_text_cases w q) as Hq.
    rewrite H in Hq. exact Hq.
  - intros q raw Hr Hd Hcr. unfold file_text. rewrite Hr, Hd.
    now rewrite universal_newlines_without_cr.
Qed.

Lemma C9_payload_holds_file_texts_witness :
  let w := Sample.world Sample.files Sample.pems Sample.utc in
  let self := Sample.installer Sample.no_conf (Some "s.valid") in
  let data := payload_of "LEAF" "KEY" "LEAF+INTERMEDIATES" Sample.leaf
                         1704067200 1711843200 in
  In (Some "secret", "example.com", data)
     (written (trace (deploy_cert w self "example.com" "/live/cert.pem"
                        "/live/privkey.pem" "/live/chain.pem"
                        "/live/fullchain.pem"))) /\
  exists cert key chain,
    file_text w "/live/cert.pem" = Return cert /\
    file_text w "/live/privkey.pem" = Return key /\
    file_text w "/live/fullchain.pem" = Return chain /\
    dict_get data "cert" = Some (JStr cert) /\
    dict_get data "key" = Some (JStr key) /\
    dict_get data "chain" = Some (JStr chain) /\
    (forall intermediates,
        file_text w "/live/chain.pem" = Return intermediates ->
        intermediates <> chain ->
        dict_get data "chain" <> Some (JStr intermediates)).
Proof.
  cbv zeta.
  assert (Hwrite :
    In (Some "secret", "example.com",
        payload_of "LEAF" "KEY" "LEAF+INTERMEDIATES" Sample.leaf
                   1704067200 1711843200)
       (written (trace (deploy_cert
          (Sample.world Sample.files Sample.pems Sample.utc)
          (Sample.installer Sample.no_conf (Some "s.valid"))
          "example.com" "/live/cert.pem" "/live/privkey.pem"
          "/live/chain.pem" "/live/fullchain.pem")))).
  { vm_compute. left. reflexivity. }
  split; [exact Hwrite |].
  exact (proj1 (C9_payload_holds_file_texts _ _ _ _ _ _ _ _ _ _ Hwrite)).
Defined.

(** C9 as stated fails: a full-chain file with CR LF line ends is
    deployed with LF line ends in the chain field, which is not the
    content of the file. *)
Lemma C9_crlf_full_chain_not_verbatim :
  let w := Sample.world Cases.crlf_files Sample.pems Sample.utc in
  let self := Sample.installer Sample.no_conf (Some "s.valid") in
  exists m p data,
    written (trace (deploy_cert w self "example.com" "/live/cert.pem"
                      "/live/privkey.pem" "/live/chain.pem"
                      "/live/fullchain.pem"))
    = [(m, p, data)] /\
    read_file w "/live/fullchain.pem" = Some Cases.crlf_chain /\
    dict_get data "chain" = Some (JStr Cases.lf_chain) /\
    dict_get data "chain" <> Some (JStr Cases.crlf_chain).
Proof.
  cbv zeta. do 3 eexists.
  split; [vm_compute; reflexivity |].
  split; [reflexivity |].
  split; [reflexivity |].
  vm_compute. discriminate.
Qed.

(** ** The chain file *)

Lemma file_text_with_files (w : World) (files' : string -> option string)
    (p : string) :
  files' p = read_file w p ->
  file_text (with_files w files') p = file_text w p.
Proof. intros H. unfold file_text. cbn. now rewrite H. Qed.

(** C10: [deploy_cert] opens only the certificate, key and full-chain
    files, and two runs that agree on the texts of these three files have
    the same trace and outcome (hence the same written payload and path),
    whatever the [chain_path] arguments and the rest of the two file
    systems are. *)
Theorem C10_chain_path_noninterference (w : World) (self : VaultInstaller)
    (files' : string -> option string)
    (domain cert_path key_path chain_path chain_path' fullchain_path : string)
    (Hcert : files' cert_path = read_file w cert_path)
    (Hkey : files' key_path = read_file w key_path)
    (Hfull : files' fullchain_path = read_file w fullchain_path) :
  deploy_cert (with_files w files') self domain cert_path key_path chain_path'
              fullchain_path
  = deploy_cert w self domain cert_path key_path chain_path fullchain_path
  /\
  forall p,
    In p (opened (trace (deploy_cert w self domain cert_path key_path
                                     chain_path fullchain_path))) ->
    p = cert_path \/ p = key_path \/ p = fullchain_path.
Proof.
  split.
  - rewrite !deploy_cert_run.
    rewrite (file_text_with_files w files' cert_path Hcert),
      (file_text_with_files w files' key_path Hkey),
      (file_text_with_files w files' fullchain_path Hfull).
    reflexivity.
  - intros p. rewrite deploy_cert_run.
    destruct (file_text w cert_path) as [e | cert]; [cbn; intuition auto |].
    destruct (parse_certificate w cert) as [e | x]; [cbn; intuition auto |].
    destruct (file_text w key_path) as [e | key]; [cbn; intuition auto |].
    destruct (file_text w fullchain_path) as [e | chain];
      [cbn; intuition auto |].
    destruct (asn1_seconds w (get_notBefore x)) as [e | issued];
      [cbn; intuition auto |].
    destruct (asn1_seconds w (get_notAfter x)) as [e | expires];
      [cbn; intuition auto |].
    cbn. intuition auto.
Qed.

Lemma C10_chain_path_noninterference_witness :
  let w := Sample.world Sample.files Sample.pems Sample.utc in
  let self := Sample.installer Sample.no_conf (Some "s.valid") in
  let files' := Sample.assoc
                  [("/live/cert.pem", "LEAF"); ("/live/privkey.pem", "KEY");
                   ("/other/chain.pem", "OTHER INTERMEDIATES");
                   ("/live/fullchain.pem", "LEAF+INTERMEDIATES")] in
  deploy_cert (with_files w files') self "example.com" "/live/cert.pem"
              "/live/privkey.pem" "/other/chain.pem" "/live/fullchain.pem"
  = deploy_cert w self "example.com" "/live/cert.pem" "/live/privkey.pem"
                "/live/chain.pem" "/live/fullchain.pem".
Proof.
  cbv zeta.
  apply (C10_chain_path_noninterference
           (Sample.world Sample.files Sample.pems Sample.utc)
           (Sample.installer Sample.no_conf (Some "s.valid"))
           (Sample.assoc
              [("/live/cert.pem", "LEAF"); ("/live/privkey.pem", "KEY");
               ("/other/chain.pem", "OTHER INTERMEDIATES");
               ("/live/fullchain.pem", "LEAF+INTERMEDIATES")])
           "example.com" "/live/cert.pem" "/live/privkey.pem"
           "/live/chain.pem" "/other/chain.pem" "/live/fullchain.pem");
    reflexivity.
Defined.

(** ** Alternative names *)

(** C6 at a failing input: a certificate whose subject alternative name
    extension holds one URI, [https://a.example/x,DNS:b.example], and no
    DNS entry is deployed with [domains = ["b.example"]]: the text after
    the comma of the URI is taken for a DNS entry. *)
Theorem C6_uri_with_comma_read_as_dns_entry :
  let w := Sample.world Sample.files [("LEAF", Sample.leaf_uri)] Sample.utc in
  let self := Sample.installer Sample.no_conf (Some "s.valid") in
  exists m p data,
    written (trace (deploy_cert w self "example.com" "/live/cert.pem"
                      "/live/privkey.pem" "/live/chain.pem"
                      "/live/fullchain.pem"))
    = [(m, p, data)] /\
    dict_get data "domains" = Some (JList [JStr "b.example"]) /\
    flat_map (fun e => spec_dns_entries (general_names e))
             (extensions Sample.leaf_uri) = [].
Proof.
  cbv zeta. do 3 eexists.
  split; [vm_compute; reflexivity |].
  split; reflexivity.
Qed.

(** The [domains] field is there exactly when the loops found a name. *)
Lemma payload_domains (cert key chain : string) (x : X509) (i e : Z) :
  dict_get (payload_of cert key chain x i e) "domains"
  = match collect_domains x with
    | [] => None
    | ds => Some (JList (map JStr ds))
    end.
Proof. unfold payload_of. destruct (collect_domains x); reflexivity. Qed.

Lemma split_no_comma (s : string) :
  has_char "," s = false -> Py.split "," s = [s].
Proof.
  induction s as [| c s IH]; cbn; [reflexivity |].
  intros H. apply orb_false_elim in H as [Hc Hs].
  rewrite Hc, (IH Hs). reflexivity.
Qed.

Lemma split_app_comma (s r : string) :
  has_char "," s = false ->
  Py.split "," (s ++ String "," r) = s :: Py.split "," r.
Proof.
  induction s as [| c s IH]; cbn; [reflexivity |].
  intros H. apply orb_false_elim in H as [Hc Hs].
  rewrite Hc, (IH Hs). reflexivity.
Qed.

(** Splitting the joined text of comma-free parts gives the parts back,
    all but the first with the space that followed the comma. *)
Lemma split_join (p : string) (ps : list string) :
  Forall (fun s => has_char "," s = false) (p :: ps) ->
  Py.split "," (Py.join ", " (p :: ps)) = p :: map (String " ") ps.
Proof.
  revert p. induction ps as [| q qs IH]; intros p Hall.
  - cbn. apply split_no_comma. now inversion Hall.
  - inversion Hall as [| ? ? Hp Hrest]; subst.
    change (Py.join ", " (p :: q :: qs))
      with (p ++ String "," (String " " (Py.join ", " (q :: qs)))).
    rewrite (split_app_comma _ _ Hp).
    change (Py.split "," (String " " (Py.join ", " (q :: qs))))
      with (match Py.split "," (Py.join ", " (q :: qs)) with
            | [] => [String " " EmptyString]
            | w :: ws => String " " w :: ws
            end).
    rewrite (IH q Hrest). reflexivity.
Qed.

Lemma strip_leading_space (s : string) :
  Py.strip (String " " s) = Py.strip s.
Proof. reflexivity. Qed.

Lemma append_dns_rows_spec (rows ds : list string) :
  append_dns_rows ds rows
  = (ds ++ flat_map (fun row => if Py.startswith "DNS:" row
                                then [Py.slice_from 4 row] else []) rows)%list.
Proof.
  unfold append_dns_rows. revert ds.
  induction rows as [| r rows IH]; intros ds; cbn [fold_left flat_map].
  - now rewrite app_nil_r.
  - rewrite IH. destruct (Py.startswith "DNS:" r).
    + now rewrite <- app_assoc.
    + reflexivity.
Qed.

(** The rows of an extension of plain names are the texts of the names. *)
Lemma san_rows_plain (n : GeneralName) (ns : list GeneralName) :
  Forall plain_name (n :: ns) ->
  san_rows (Py.join ", " (map name_part (n :: ns))) = map name_part (n :: ns).
Proof.
  intros Hall. unfold san_rows. cbn [map].
  rewrite split_join.
  - cbn [map]. f_equal.
    + inversion Hall as [| ? ? (_ & _ & Hs & _) _]. exact Hs.
    + inversion Hall as [| ? ? _ Hns]; subst. clear Hall.
      induction Hns as [| m ms (_ & _ & Hs & _) _ IH]; cbn [map];
        [reflexivity |].
      rewrite strip_leading_space, Hs, IH. reflexivity.
  - change (name_part n :: map name_part ns) with (map name_part (n :: ns)).
    apply Forall_map. eapply Forall_impl; [| exact Hall].
    now intros a (_ & Hc & _).
Qed.

Lemma dns_rows_of_plain_names (ns : list GeneralName) :
  Forall plain_name ns ->
  flat_map (fun row => if Py.startswith "DNS:" row
                       then [Py.slice_from 4 row] else [])
           (map name_part ns)
  = spec_dns_entries ns.
Proof.
  unfold spec_dns_entries.
  induction 1 as [| n ns (_ & _ & _ & Hlabel) _ IH]; [reflexivity |].
  cbn [map flat_map]. f_equal; [| exact IH].
  destruct n as [v | v | v | s]; cbn [name_part]; try reflexivity.
  - destruct v; reflexivity.
  - cbv beta iota in Hlabel. now rewrite Hlabel.
Qed.

Lemma collect_loop_plain (es : list X509Extension) (ds : list string) :
  Forall (fun e => is_san e = true -> Forall plain_name (general_names e)) es ->
  fold_left
    (fun ds ext =>
       if Py.contains "subjectAltName" (Py.str_bytes (get_short_name ext))
       then append_dns_rows ds (san_rows (_subjectAltNameString ext))
       else ds)
    es ds
  = (ds ++ flat_map (fun e => if is_san e
                              then spec_dns_entries (general_names e)
                              else []) es)%list.
Proof.
  intros Hall. revert ds.
  induction Hall as [| e es He _ IH]; intros ds; cbn [fold_left flat_map].
  - now rewrite app_nil_r.
  - rewrite IH. fold (is_san e).
    destruct (is_san e) eqn:Hsan; [| reflexivity].
    rewrite append_dns_rows_spec, <- app_assoc. f_equal. f_equal.
    unfold _subjectAltNameString.
    specialize (He eq_refl).
    destruct (general_names e) as [| n ns]; [reflexivity |].
    rewrite (san_rows_plain n ns He).
    now apply dns_rows_of_plain_names.
Qed.

(** On a certificate whose alternative names are plain, the two loops of
    [deploy_cert] collect the DNS entries of the alternative-name
    extensions, in order. *)
Lemma collect_domains_plain (x : X509) :
  Forall (fun e => is_san e = true -> Forall plain_name (general_names e))
         (extensions x) ->
  collect_domains x
  = flat_map (fun e => if is_san e then spec_dns_entries (general_names e)
                       else [])
             (extensions x).
Proof.
  intros Hall. unfold collect_domains.
  now rewrite (collect_loop_plain _ [] Hall).
Qed.

(** ** Ordinary certificates *)

(** The alternative names [DNS:a.example, DNS:b.example] give
    [domains = ["a.example"; "b.example"]]. *)
Example domains_of_two_dns_names :
  dict_get (payload_of "LEAF" "KEY" "LEAF+INTERMEDIATES" Sample.leaf 0 1)
           "domains"
  = Some (JList [JStr "a.example"; JStr "b.example"]).
Proof. reflexivity. Qed.

(** Without an alternative-name extension the payload has no [domains]
    field. *)
Example no_domains_without_extension :
  dict_get (payload_of "LEAF" "KEY" "LEAF+INTERMEDIATES"
              {| get_serial_number := 1;
                 get_notBefore := "20240101000000Z";
                 get_notAfter := "20240331000000Z";
                 extensions := [Sample.basic_constraints] |} 0 1)
           "domains"
  = None.
Proof. reflexivity. Qed.

Example split_example :
  Py.split "," "DNS:a.example, DNS:b.example"
  = ["DNS:a.example"; " DNS:b.example"].
Proof. reflexivity. Qed.

Example str_int_example :
  Py.str_int 340282366920938463463374607431768211455
  = "340282366920938463463374607431768211455".
Proof. vm_compute. reflexivity. Qed.

Example strptime_rejects_february_30 :
  PyDatetime.strptime "20240230000000Z" = None.
Proof. reflexivity. Qed.

Example strptime_accepts_lower_case_z :
  PyDatetime.strptime "20240101000000z"
  = Some {| PyDatetime.year := 2024; PyDatetime.month := 1;
            PyDatetime.day := 1; PyDatetime.hour := 0;
            PyDatetime.minute := 0; PyDatetime.second := 0 |}.
Proof. reflexivity. Qed.

Example strptime_backtracks_on_short_fields :
  PyDatetime.strptime "2024111213Z"
  = Some {| PyDatetime.year := 2024; PyDatetime.month := 11;
            PyDatetime.day := 1; PyDatetime.hour := 2;
            PyDatetime.minute := 1; PyDatetime.second := 3 |}.
Proof. reflexivity. Qed.

Example strptime_rejects_leap_second :
  PyDatetime.strptime "20161231235960Z" = None.
Proof. reflexivity. Qed.

(* ------------------------------------------------------------------ *)
(** * Further properties of the plugin *)

Import Cases.

(** ** Construction *)

(** X1: with no token, no complete approle pair and no complete JWT pair
    configured (an empty value counts as none), construction makes no
    call at all and the client is left with the token [hvac] found by
    itself. *)
Theorem X1_init_without_credentials (w : World) (c : Conf)
    (Htoken : Py.truthy (token c) = false)
    (Happrole : Py.truthy (role_id c) && Py.truthy (secret_id c) = false)
    (Hjwt : Py.truthy (jwt_role c) && Py.truthy (jwt_key c) = false) :
  __init__ w c
  = ([], Return {| conf := c;
                   hvac_client := {| url := addr c;
                                     session := init_session c;
                                     client_token := default_token w |} |}).
Proof. unfold __init__. rewrite Htoken, Happrole, Hjwt. reflexivity. Qed.

Lemma X1_init_without_credentials_witness :
  let w := Sample.world [] [] Sample.utc in
  let c := Sample.with_token (Sample.with_approle Sample.no_conf "role" "") "" in
  trace (__init__ w c) = [] /\
  exists self, outcome (__init__ w c) = Return self
               /\ client_token (hvac_client self) = None.
Proof.
  cbv zeta.
  rewrite (X1_init_without_credentials
             (Sample.world [] [] Sample.utc)
             (Sample.with_token (Sample.with_approle Sample.no_conf "role" "") "")
             eq_refl eq_refl eq_refl).
  split; [reflexivity |]. eexists; split; reflexivity.
Defined.

(** X2: which logins construction performs. An approle login is made
    exactly when role-id and secret-id are both non-empty; a JWT login
    exactly when jwt-role and jwt-key are both non-empty and the approle
    login, if one was due, succeeded. *)
Theorem X2_init_logins (w : World) (c : Conf) :
  let approle := Py.truthy (role_id c) && Py.truthy (secret_id c) in
  let jwt := Py.truthy (jwt_role c) && Py.truthy (jwt_key c) in
  existsb is_approle_login (trace (__init__ w c)) = approle /\
  existsb is_jwt_login (trace (__init__ w c))
  = jwt && (negb approle
            || is_some (approle_login w (conf_str (role_id c))
                          (conf_str (secret_id c))
                          (Py.or_default (auth_path c) "approle"))).
Proof. cbv zeta. init_cases w c; split; reflexivity. Qed.

(** X3: when the approle login is refused, construction ends with that
    error right there: the login, made by the client holding the static
    token if one is configured and [hvac]'s own otherwise, is its only
    call, and a configured JWT login is not attempted. *)
Theorem X3_init_approle_refused (w : World) (c : Conf)
    (Hrole : Py.truthy (role_id c) = true)
    (Hsecret : Py.truthy (secret_id c) = true)
    (Hrefused : approle_login w (conf_str (role_id c)) (conf_str (secret_id c))
                              (Py.or_default (auth_path c) "approle") = None) :
  __init__ w c
  = ([EvApproleLogin (static_token w c)
                     (conf_str (role_id c)) (conf_str (secret_id c))
                     (Py.or_default (auth_path c) "approle")],
     Raise (VaultError "approle.login")).
Proof.
  unfold __init__, auth_approle_login, static_token.
  rewrite Hrole, Hsecret. cbn [andb].
  destruct (Py.truthy (token c)); cbn; rewrite Hrefused; reflexivity.
Qed.

Lemma X3_init_approle_refused_witness :
  let w := approle_refused (Sample.world [] [] Sample.utc) in
  let c := with_jwt (Sample.with_approle Sample.no_conf "role" "secret")
                    "jwt-role" "jwt-key" in
  __init__ w c
  = ([EvApproleLogin None "role" "secret" "approle"],
     Raise (VaultError "approle.login")).
Proof.
  cbv zeta.
  apply (X3_init_approle_refused
           (approle_refused (Sample.world [] [] Sample.utc))
           (with_jwt (Sample.with_approle Sample.no_conf "role" "secret")
                     "jwt-role" "jwt-key")
           eq_refl eq_refl eq_refl).
Defined.

(** X4: with an approle pair and a JWT pair both configured and both
    logins granted, construction logs in with approle first and with JWT
    second, and the client ends up holding the token of the JWT login,
    whatever static token is configured. The approle login goes to
    auth-path or, by default, to [approle]; the JWT login is given
    auth-path as it is, without a default, and is made by the client
    holding the token of the approle login. *)
Theorem X4_init_approle_then_jwt (w : World) (c : Conf) (t1 t2 : string)
    (Happrole : Py.truthy (role_id c) && Py.truthy (secret_id c) = true)
    (Hjwt : Py.truthy (jwt_role c) && Py.truthy (jwt_key c) = true)
    (Hlogin1 : approle_login w (conf_str (role_id c)) (conf_str (secret_id c))
                             (Py.or_default (auth_path c) "approle") = Some t1)
    (Hlogin2 : jwt_login w (conf_str (jwt_role c)) (conf_str (jwt_key c))
                         (auth_path c) = Some t2) :
  __init__ w c
  = ([EvApproleLogin (static_token w c)
                     (conf_str (role_id c)) (conf_str (secret_id c))
                     (Py.or_default (auth_path c) "approle");
      EvJwtLogin (Some t1) (conf_str (jwt_role c)) (conf_str (jwt_key c))
                 (auth_path c)],
     Return {| conf := c;
               hvac_client := {| url := addr c;
                                 session := init_session c;
                                 client_token := Some t2 |} |}).
Proof.
  unfold __init__, auth_approle_login, auth_jwt_login, static_token.
  rewrite Happrole, Hjwt.
  destruct (Py.truthy (token c)); cbn; rewrite Hlogin1; cbn;
    rewrite Hlogin2; reflexivity.
Qed.

Lemma X4_init_approle_then_jwt_witness :
  let w := Sample.world [] [] Sample.utc in
  let c := with_jwt (Sample.with_approle
                       (Sample.with_token Sample.no_conf "s.static")
                       "role" "secret")
                    "jwt-role" "jwt-key" in
  trace (__init__ w c)
  = [EvApproleLogin (Some "s.static") "role" "secret" "approle";
     EvJwtLogin (Some "s.approle") "jwt-role" "jwt-key" None] /\
  exists self, outcome (__init__ w c) = Return self
               /\ client_token (hvac_client self) = Some "s.jwt".
Proof.
  cbv zeta.
  rewrite (X4_init_approle_then_jwt
             (Sample.world [] [] Sample.utc)
             (with_jwt (Sample.with_approle
                          (Sample.with_token Sample.no_conf "s.static")
                          "role" "secret")
                       "jwt-role" "jwt-key")
             "s.approle" "s.jwt" eq_refl eq_refl eq_refl eq_refl).
  split; [reflexivity |]. eexists; split; reflexivity.
Defined.

(** X5: construction opens no file, issues no write and does not ask the
    server whether the client is authenticated: its only calls are
    logins. *)
Theorem X5_init_only_logs_in (w : World) (c : Conf) :
  opened (trace (__init__ w c)) = [] /\
  written (trace (__init__ w c)) = [] /\
  existsb is_auth_check (trace (__init__ w c)) = false /\
  forallb (fun ev => is_approle_login ev || is_jwt_login ev)
          (trace (__init__ w c)) = true.
Proof. init_cases w c; repeat split; reflexivity. Qed.

(** What a successful construction leaves in the installer, but for the
    token. *)
Lemma init_client_shape (w : World) (c : Conf) (self : VaultInstaller) :
  outcome (__init__ w c) = Return self ->
  conf self = c /\ url (hvac_client self) = addr c
  /\ session (hvac_client self) = init_session c.
Proof. init_cases w c; intros H; inversion H; repeat split; reflexivity. Qed.

(** The token a construction that returns leaves in the client. *)
Lemma init_held_token (w : World) (c : Conf) (self : VaultInstaller) :
  outcome (__init__ w c) = Return self ->
  client_token (hvac_client self)
  = if Py.truthy (jwt_role c) && Py.truthy (jwt_key c)
    then jwt_login w (conf_str (jwt_role c)) (conf_str (jwt_key c)) (auth_path c)
    else if Py.truthy (role_id c) && Py.truthy (secret_id c)
    then approle_login w (conf_str (role_id c)) (conf_str (secret_id c))
                       (Py.or_default (auth_path c) "approle")
    else if Py.truthy (token c) then token c
    else default_token w.
Proof. init_cases w c; intros H; inversion H; reflexivity. Qed.

(** X6: the token a constructed client holds is the one of the last
    strategy that applies, in the order of the code: the token of the JWT
    login if a JWT pair is configured, else the token of the approle
    login if an approle pair is configured, else the static token if one
    is configured, else the token [hvac] found by itself. *)
Theorem X6_init_last_strategy_wins (w : World) (c : Conf) (self : VaultInstaller)
    (Hinit : outcome (__init__ w c) = Return self) :
  client_token (hvac_client self)
  = if Py.truthy (jwt_role c) && Py.truthy (jwt_key c)
    then jwt_login w (conf_str (jwt_role c)) (conf_str (jwt_key c)) (auth_path c)
    else if Py.truthy (role_id c) && Py.truthy (secret_id c)
    then approle_login w (conf_str (role_id c)) (conf_str (secret_id c))
                       (Py.or_default (auth_path c) "approle")
    else if Py.truthy (token c) then token c
    else default_token w.
Proof. exact (init_held_token w c self Hinit). Qed.

Lemma X6_init_last_strategy_wins_witness :
  let w := Sample.world [] [] Sample.utc in
  let c := with_jwt (Sample.with_token Sample.no_conf "s.static")
                    "jwt-role" "jwt-key" in
  exists self, outcome (__init__ w c) = Return self
               /\ client_token (hvac_client self) = Some "s.jwt".
Proof.
  cbv zeta. eexists. split; [reflexivity |].
  apply (X6_init_last_strategy_wins
           (Sample.world [] [] Sample.utc)
           (with_jwt (Sample.with_token Sample.no_conf "s.static")
                     "jwt-role" "jwt-key")).
  reflexivity.
Defined.

(** X7: with a server name configured, a constructed client is bound to
    the configured address and its session has the server-name adapter on
    the [https://] prefix only: the [http://] prefix keeps the library's
    adapter. The adapter hands to its pool manager the configured name
    as [server_hostname], whatever host the address names, and the
    configured CA bundle as [ca_certs] if there is one. *)
Theorem X7_init_server_name_session (w : World) (c : Conf) (self : VaultInstaller)
    (Hinit : outcome (__init__ w c) = Return self)
    (Hname : Py.truthy (tls_server_name c) = true) :
  let ca := if Py.truthy (tls_cacert c)
            then Some (MkPath (conf_str (tls_cacert c))) else None in
  url (hvac_client self) = addr c /\
  adapters (session (hvac_client self))
  = [("https://", SNIAdapter (conf_str (tls_server_name c)) ca);
     ("http://", HTTPAdapter)] /\
  https_kwargs (session (hvac_client self))
  = Some {| server_hostname := Some (conf_str (tls_server_name c));
            ca_certs_kw := ca |}.
Proof.
  cbv zeta. destruct (init_client_shape w c self Hinit) as (_ & Hurl & Hs).
  rewrite Hurl, Hs. unfold init_session. rewrite Hname.
  destruct (Py.truthy (tls_cacert c)); repeat split; reflexivity.
Qed.

Lemma X7_init_server_name_session_witness :
  let w := Sample.world [] [] Sample.utc in
  let c := Sample.with_server_name
             (Sample.with_cacert (Sample.with_token Sample.no_conf "s.valid")
                                 "/etc/vault/ca.pem")
             "vault.internal" in
  exists self,
    outcome (__init__ w c) = Return self /\
    https_kwargs (session (hvac_client self))
    = Some {| server_hostname := Some "vault.internal";
              ca_certs_kw := Some (MkPath "/etc/vault/ca.pem") |}.
Proof.
  cbv zeta. eexists. split; [reflexivity |].
  apply (X7_init_server_name_session
           (Sample.world [] [] Sample.utc)
           (Sample.with_server_name
              (Sample.with_cacert (Sample.with_token Sample.no_conf "s.valid")
                                  "/etc/vault/ca.pem")
              "vault.internal"));
    reflexivity.
Defined.

(** ** Readiness *)

(** X8: [prepare] on a constructed client makes one call, the readiness
    check, and nothing else. It returns when the client holds a token
    whose lookup goes through; it raises the plugin error
    [Not authenticated] when the client holds no token or the server
    turns the token down; and an error of the lookup itself comes out of
    [prepare] as it is. For a configuration with a static token and no
    complete pair, the token looked up is the configured one. *)
Theorem X8_prepare_after_init (w : World) (c : Conf) (self : VaultInstaller)
    (Hinit : outcome (__init__ w c) = Return self) :
  trace (prepare w self) = [EvIsAuthenticated (client_token (hvac_client self))] /\
  outcome (prepare w self)
  = match readiness w (hvac_client self) with
    | Some true => Return tt
    | Some false => Raise (PluginError "Not authenticated")
    | None => Raise (VaultError "lookup_token")
    end /\
  (Py.truthy (jwt_role c) && Py.truthy (jwt_key c) = false ->
   Py.truthy (role_id c) && Py.truthy (secret_id c) = false ->
   Py.truthy (token c) = true ->
   readiness w (hvac_client self) = token_valid w (conf_str (token c))).
Proof.
  pose proof (Htok := init_held_token w c self Hinit).
  unfold prepare, client_is_authenticated, readiness.
  split; [| split].
  - destruct (Py.truthy (client_token (hvac_client self)));
      [destruct (token_valid w _) as [[|] |] |]; reflexivity.
  - destruct (Py.truthy (client_token (hvac_client self)));
      [destruct (token_valid w _) as [[|] |] |]; reflexivity.
  - intros Hj Ha Ht. rewrite Htok, Hj, Ha, Ht, Ht. reflexivity.
Qed.

Lemma X8_prepare_after_init_witness :
  let w := lookup_fails (Sample.world [] [] Sample.utc) in
  let c := Sample.with_token Sample.no_conf "s.valid" in
  exists self,
    outcome (__init__ w c) = Return self /\
    trace (prepare w self) = [EvIsAuthenticated (Some "s.valid")] /\
    outcome (prepare w self) = Raise (VaultError "lookup_token").
Proof.
  cbv zeta. eexists. split; [reflexivity |].
  destruct (X8_prepare_after_init
              (lookup_fails (Sample.world [] [] Sample.utc))
              (Sample.with_token Sample.no_conf "s.valid") _ eq_refl)
    as (Htrace & Hout & _).
  split; [exact Htrace | exact Hout].
Defined.

(** ** Deployment *)

Ltac deploy_cases w x cert_path key_path fullchain_path tac :=
  rewrite ?deploy_cert_run;
  let e := fresh "e" in
  let cert := fresh "cert" in
  destruct (file_text w cert_path) as [e | cert]; [tac |];
  destruct (parse_certificate w cert) as [e | x]; [tac |];
  destruct (file_text w key_path) as [e | ?key]; [tac |];
  destruct (file_text w fullchain_path) as [e | ?chain]; [tac |];
  destruct (asn1_seconds w (get_notBefore x)) as [e | ?issued]; [tac |];
  destruct (asn1_seconds w (get_notAfter x)) as [e | ?expires]; [tac |].

(** X9: a deploy call issues at most one write, as the last of its calls
    (there is no second attempt); and it returns normally only after
    having issued that write, to the configured mount and the path of the
    domain. *)
Theorem X9_deploy_writes_once_at_the_end (w : World) (self : VaultInstaller)
    (domain cert_path key_path chain_path fullchain_path : string) :
  let run := deploy_cert w self domain cert_path key_path chain_path
                         fullchain_path in
  (length (written (trace run)) <= 1)%nat /\
  (exists reads, written reads = [] /\
     (trace run = reads \/
      exists data,
        trace run
        = (reads ++ [EvCreateOrUpdateSecret (mount (conf self))
                       (int_path_of w (conf self) domain) data])%list)) /\
  (outcome run = Return tt -> length (written (trace run)) = 1%nat).
Proof.
  cbv zeta.
  deploy_cases w x cert_path key_path fullchain_path
    ltac:(cbn; split; [lia |]; split;
          [eexists; split; [| left; reflexivity]; reflexivity | discriminate]).
  cbn. split; [lia |]. split; [| reflexivity].
  eexists [EvOpen cert_path; EvLoadCertificate _; EvOpen key_path;
           EvOpen fullchain_path].
  split; [reflexivity |]. right. eexists. reflexivity.
Qed.

(** X10: a deploy call returns normally exactly when it has issued its
    write and the store has taken it. *)
Theorem X10_deploy_returns_iff (w : World) (self : VaultInstaller)
    (domain cert_path key_path chain_path fullchain_path : string) :
  let run := deploy_cert w self domain cert_path key_path chain_path
                         fullchain_path in
  outcome run = Return tt
  <->
  exists m p data,
    In (m, p, data) (written (trace run))
    /\ store_accepts w m p data = true.
Proof.
  cbv zeta.
  deploy_cases w x cert_path key_path fullchain_path
    ltac:(cbn; split; [discriminate | intros (m & p & data & [] & _)]).
  cbn. split.
  - intros H. do 3 eexists. split; [left; reflexivity |].
    destruct (store_accepts w _ _ _); [reflexivity | discriminate].
  - intros (m & p & data & [[= <- <- <-] | []] & Hok). now rewrite Hok.
Qed.



(** X12: when a deploy call issues its write and the store refuses it,
    the call ends with the store's error, and that write is the only one
    attempted. *)
Theorem X12_deploy_refused_write (w : World) (self : VaultInstaller)
    (domain cert_path key_path chain_path fullchain_path : string)
    (m : option string) (p : string) (data : Dict)
    (Hwrite : In (m, p, data)
                 (written (trace (deploy_cert w self domain cert_path key_path
                                              chain_path fullchain_path))))
    (Hrefused : store_accepts w m p data = false) :
  let run := deploy_cert w self domain cert_path key_path chain_path
                         fullchain_path in
  outcome run = Raise (VaultError "create_or_update_secret") /\
  written (trace run) = [(m, p, data)].
Proof.
  cbv zeta. revert Hwrite.
  deploy_cases w x cert_path key_path fullchain_path
    ltac:(cbn; intros []).
  cbn. intros [[= <- <- <-] | []]. rewrite Hrefused. split; reflexivity.
Qed.

Lemma X12_deploy_refused_write_witness :
  let w := Sample.refusing (Sample.world Sample.files Sample.pems Sample.utc) in
  let self := Sample.installer Sample.no_conf (Some "s.valid") in
  let run := deploy_cert w self "example.com" "/live/cert.pem"
               "/live/privkey.pem" "/live/chain.pem" "/live/fullchain.pem" in
  outcome run = Raise (VaultError "create_or_update_secret") /\
  length (written (trace run)) = 1%nat.
Proof.
  cbv zeta.
  destruct (X12_deploy_refused_write
              (Sample.refusing
                 (Sample.world Sample.files Sample.pems Sample.utc))
              (Sample.installer Sample.no_conf (Some "s.valid"))
              "example.com" "/live/cert.pem" "/live/privkey.pem"
              "/live/chain.pem" "/live/fullchain.pem"
              (Some "secret") "example.com"
              (payload_of "LEAF" "KEY" "LEAF+INTERMEDIATES" Sample.leaf
                          1704067200 1711843200))
    as (Hout & Hw).
  - vm_compute. left. reflexivity.
  - reflexivity.
  - split; [exact Hout |]. rewrite Hw. reflexivity.
Defined.

(** X13: the payload of every write has the six fields [type], [cert],
    [key], [chain], [serial], [life], in this order, followed by
    [domains] when names were found. [type] is the fixed tag, [serial]
    the numeral of an integer, [life] holds the two integers [issued] and
    [expires], and [domains], when there, is a non-empty list of
    strings: it is never an empty list. *)
Theorem X13_payload_shape (w : World) (self : VaultInstaller)
    (domain cert_path key_path chain_path fullchain_path : string)
    (m : option string) (p : string) (data : Dict)
    (Hwrite : In (m, p, data)
                 (written (trace (deploy_cert w self domain cert_path key_path
                                              chain_path fullchain_path)))) :
  let base := ["type"; "cert"; "key"; "chain"; "serial"; "life"] in
  dict_get data "type" = Some (JStr "urn:scheme:type:certificate") /\
  (exists n, dict_get data "serial" = Some (JStr (Py.str_int n))) /\
  (exists i e, dict_get data "life"
               = Some (JDict [("issued", JInt i); ("expires", JInt e)])) /\
  ((keys data = base /\ dict_get data "domains" = None)
   \/ (keys data = (base ++ ["domains"])%list
       /\ exists d ds,
            dict_get data "domains" = Some (JList (map JStr (d :: ds))))).
Proof.
  apply deploy_cert_written in Hwrite
    as (_ & _ & cert & key & chain & x & nb & na & _ & _ & _ & _ & _ & _ & ->).
  cbv zeta. unfold payload_of.
  destruct (collect_domains x) as [| d ds]; cbn.
  - split; [reflexivity |]. split; [eauto |]. split; [eauto |].
    left. split; reflexivity.
  - split; [reflexivity |]. split; [eauto |]. split; [eauto |].
    right. split; [reflexivity |]. exists d, ds. reflexivity.
Qed.

Lemma X13_payload_shape_witness :
  let w := Sample.world Sample.files Sample.pems Sample.utc in
  let self := Sample.installer Sample.no_conf (Some "s.valid") in
  let data := payload_of "LEAF" "KEY" "LEAF+INTERMEDIATES" Sample.leaf
                         1704067200 1711843200 in
  In (Some "secret", "example.com", data)
     (written (trace (deploy_cert w self "example.com" "/live/cert.pem"
                        "/live/privkey.pem" "/live/chain.pem"
                        "/live/fullchain.pem"))) /\
  dict_get data "type" = Some (JStr "urn:scheme:type:certificate").
Proof.
  cbv zeta.
  assert (Hwrite :
    In (Some "secret", "example.com",
        payload_of "LEAF" "KEY" "LEAF+INTERMEDIATES" Sample.leaf
                   1704067200 1711843200)
       (written (trace (deploy_cert
          (Sample.world Sample.files Sample.pems Sample.utc)
          (Sample.installer Sample.no_conf (Some "s.valid"))
          "example.com" "/live/cert.pem" "/live/privkey.pem"
          "/live/chain.pem" "/live/fullchain.pem")))).
  { vm_compute. left. reflexivity. }
  split; [exact Hwrite |].
  exact (proj1 (X13_payload_shape _ _ _ _ _ _ _ _ _ _ Hwrite)).
Defined.

(** X14: the domain argument decides the path only. Two deploy calls
    that differ in nothing but the domain open the same files and write
    the same payload to the same mount. *)
Theorem X14_domain_decides_path_only (w : World) (self : VaultInstaller)
    (domain domain' cert_path key_path chain_path fullchain_path : string) :
  let run := deploy_cert w self domain cert_path key_path chain_path
                         fullchain_path in
  let run' := deploy_cert w self domain' cert_path key_path chain_path
                          fullchain_path in
  opened (trace run) = opened (trace run') /\
  map (fun e => (fst (fst e), snd e)) (written (trace run))
  = map (fun e => (fst (fst e), snd e)) (written (trace run')) /\
  map (fun e => snd (fst e)) (written (trace run))
  = map (fun _ => int_path_of w (conf self) domain) (written (trace run')).
Proof.
  cbv zeta. rewrite !deploy_cert_run.
  deploy_cases w x cert_path key_path fullchain_path ltac:(now cbn).
  now cbn.
Qed.


(** ** Alternative names, again *)

(** X16: for a certificate whose alternative-name entries are plain
    (7-bit texts with no comma inside, no white space at their ends, and
    no OpenSSL-printed entry labelled [DNS:]), the [domains] field of the
    written payload is the list of the DNS entries of the
    alternative-name extensions, in order, entries of other types
    (e-mail, URI, IP address) and other extensions being skipped; and the
    field is absent when there is no DNS entry. *)
Theorem X16_domains_of_plain_names (w : World) (self : VaultInstaller)
    (domain cert_path key_path chain_path fullchain_path : string)
    (cert : string) (x : X509)
    (m : option string) (p : string) (data : Dict)
    (Hcert : file_text w cert_path = Return cert)
    (Hx : parse_certificate w cert = Return x)
    (Hplain : Forall (fun e => is_san e = true ->
                               Forall plain_name (general_names e))
                     (extensions x))
    (Hwrite : In (m, p, data)
                 (written (trace (deploy_cert w self domain cert_path key_path
                                              chain_path fullchain_path)))) :
  dict_get data "domains"
  = match flat_map (fun e => if is_san e
                             then spec_dns_entries (general_names e) else [])
                   (extensions x) with
    | [] => None
    | ds => Some (JList (map JStr ds))
    end.
Proof.
  apply deploy_cert_written in Hwrite
    as (_ & _ & cert' & key & chain & x' & nb & na
        & Hc' & Hx' & _ & _ & _ & _ & ->).
  assert (cert' = cert) by congruence. subst cert'.
  assert (x' = x) by congruence. subst x'.
  rewrite payload_domains, (collect_domains_plain x Hplain). reflexivity.
Qed.

Lemma X16_domains_of_plain_names_witness :
  let w := Sample.world Sample.files [("LEAF", leaf_mixed)] Sample.utc in
  let self := Sample.installer Sample.no_conf (Some "s.valid") in
  let data := payload_of "LEAF" "KEY" "LEAF+INTERMEDIATES" leaf_mixed
                         1704067200 1711843200 in
  In (Some "secret", "example.com", data)
     (written (trace (deploy_cert w self "example.com" "/live/cert.pem"
                        "/live/privkey.pem" "/live/chain.pem"
                        "/live/fullchain.pem"))) /\
  dict_get data "domains"
  = Some (JList [JStr "a.example"; JStr "*.b.example"]).
Proof.
  cbv zeta.
  assert (Hwrite :
    In (Some "secret", "example.com",
        payload_of "LEAF" "KEY" "LEAF+INTERMEDIATES" leaf_mixed
                   1704067200 1711843200)
       (written (trace (deploy_cert
          (Sample.world Sample.files [("LEAF", leaf_mixed)] Sample.utc)
          (Sample.installer Sample.no_conf (Some "s.valid"))
          "example.com" "/live/cert.pem" "/live/privkey.pem"
          "/live/chain.pem" "/live/fullchain.pem")))).
  { vm_compute. left. reflexivity. }
  split; [exact Hwrite |].
  apply (X16_domains_of_plain_names
           (Sample.world Sample.files [("LEAF", leaf_mixed)] Sample.utc)
           (Sample.installer Sample.no_conf (Some "s.valid"))
           "example.com" "/live/cert.pem" "/live/privkey.pem"
           "/live/chain.pem" "/live/fullchain.pem" "LEAF" leaf_mixed
           (Some "secret") "example.com" _ eq_refl eq_refl);
    [| exact Hwrite].
  repeat constructor; try discriminate; reflexivity.
Defined.

(** X17: extensions that [deploy_cert] does not take for the alternative
    names contribute nothing: the names collected from a certificate are
    those collected from its alternative-name extensions alone, and a
    certificate without such an extension yields none. *)
Theorem X17_other_extensions_ignored (x : X509) :
  collect_domains x
  = collect_domains {| get_serial_number := get_serial_number x;
                       get_notBefore := get_notBefore x;
                       get_notAfter := get_notAfter x;
                       extensions := filter is_san (extensions x) |}
  /\ (forallb (fun e => negb (is_san e)) (extensions x) = true ->
      collect_domains x = []).
Proof.
  unfold collect_domains. cbn [extensions].
  generalize (@nil string) as ds.
  induction (extensions x) as [| e es IH]; intros ds; cbn [fold_left filter].
  - split; reflexivity.
  - fold (is_san e). destruct (is_san e) eqn:Hsan.
    + cbn [fold_left forallb negb andb]. fold (is_san e). rewrite Hsan.
      split; [apply IH | discriminate].
    + split; [apply IH |]. cbn [forallb]. rewrite Hsan. cbn [negb andb].
      apply IH.
Qed.

(** ** Order of the reads *)

(** X18: the key file is opened only after the certificate file was read
    and parsed, and the full-chain file only after the key file was
    read: a deploy call on a certificate file that cannot be read, or
    whose text does not load, touches neither. *)
Theorem X18_key_opened_after_parse (w : World) (self : VaultInstaller)
    (domain cert_path key_path chain_path fullchain_path : string)
    (Hcert : (exists e, file_text w cert_path = Raise e)
             \/ exists cert e, file_text w cert_path = Return cert
                               /\ parse_certificate w cert = Raise e) :
  opened (trace (deploy_cert w self domain cert_path key_path chain_path
                             fullchain_path))
  = [cert_path].
Proof.
  rewrite deploy_cert_run.
  destruct Hcert as [(e & ->) | (cert & e & -> & ->)]; reflexivity.
Qed.

Lemma X18_key_opened_after_parse_witness :
  let w := Sample.world [("/live/cert.pem", "not a certificate");
                         ("/live/privkey.pem", "KEY");
                         ("/live/fullchain.pem", "LEAF+INTERMEDIATES")]
                        Sample.pems Sample.utc in
  let self := Sample.installer Sample.no_conf (Some "s.valid") in
  opened (trace (deploy_cert w self "example.com" "/live/cert.pem"
                   "/live/privkey.pem" "/live/chain.pem"
                   "/live/fullchain.pem"))
  = ["/live/cert.pem"].
Proof.
  cbv zeta.
  apply (X18_key_opened_after_parse
           (Sample.world [("/live/cert.pem", "not a certificate");
                          ("/live/privkey.pem", "KEY");
                          ("/live/fullchain.pem", "LEAF+INTERMEDIATES")]
                         Sample.pems Sample.utc)).
  right. exists "not a certificate", CryptoError. split; reflexivity.
Defined.

(** The reads of an unreadable or missing certificate file, in the terms
    of the file system: a file that cannot be opened, or a text that
    does not parse, is such a case. *)
Lemma unreadable_certificate_cases (w : World) (cert_path : string) :
  (read_file w cert_path = None
   \/ exists cert, read_file w cert_path = Some cert
                   /\ decode w cert = Some cert
                   /\ has_char Py.CR cert = false
                   /\ Py.ascii7 cert = true
                   /\ load_certificate w cert = None) ->
  (exists e, file_text w cert_path = Raise e)
  \/ exists cert e, file_text w cert_path = Return cert
                    /\ parse_certificate w cert = Raise e.
Proof.
  intros [H | (cert & Hr & Hd & Hcr & H7 & Hl)].
  - left. exists (OSError cert_path). unfold file_text. now rewrite H.
  - right. exists cert, CryptoError. split.
    + unfold file_text. rewrite Hr, Hd.
      now rewrite universal_newlines_without_cr.
    + unfold parse_certificate. now rewrite H7, Hl.
Qed.

(** ** Serial and validity on a host with a constant offset *)

(** X20: on a host whose zone has one constant offset, every payload a
    deploy call writes has for serial the decimal numeral of the serial
    number of the loaded certificate, whatever its size, and for
    [life.issued] and [life.expires] the two validity bounds read as UTC
    and moved by the offset; so [issued] is below [expires] whenever
    notBefore precedes notAfter. *)
Theorem X20_serial_and_life_constant_offset (w : World) (self : VaultInstaller)
    (domain cert_path key_path chain_path fullchain_path : string)
    (m : option string) (p : string) (data : Dict) (off : Z)
    (Htz : forall u, utcoffset w u = off)
    (Hwrite : In (m, p, data)
                 (written (trace (deploy_cert w self domain cert_path key_path
                                              chain_path fullchain_path)))) :
  exists cert x nb na issued expires,
    file_text w cert_path = Return cert /\
    parse_certificate w cert = Return x /\
    PyDatetime.strptime (get_notBefore x) = Some nb /\
    PyDatetime.strptime (get_notAfter x) = Some na /\
    dict_get data "serial" = Some (JStr (Py.str_int (get_serial_number x))) /\
    Py.int_of_str (Py.str_int (get_serial_number x))
    = Some (get_serial_number x) /\
    life_of data = Some (issued, expires) /\
    issued = PyDatetime.seconds_since_epoch nb - off /\
    expires = PyDatetime.seconds_since_epoch na - off /\
    (PyDatetime.seconds_since_epoch nb < PyDatetime.seconds_since_epoch na ->
     issued < expires).
Proof.
  apply deploy_cert_written in Hwrite
    as (_ & _ & cert & key & chain & x & issued & expires
        & Hc & Hx & _ & _ & Hnb & Hna & ->).
  apply asn1_seconds_return in Hnb as (nb & Hnb & Hi).
  apply asn1_seconds_return in Hna as (na & Hna & He).
  apply (timestamp_constant_offset _ off) in Hi; [| exact Htz].
  apply (timestamp_constant_offset _ off) in He; [| exact Htz].
  exists cert, x, nb, na, issued, expires.
  split; [exact Hc |]. split; [exact Hx |].
  split; [exact Hnb |]. split; [exact Hna |].
  split; [apply payload_serial |].
  split; [apply str_int_roundtrip |].
  split; [apply payload_life |].
  split; [exact Hi |]. split; [exact He |]. lia.
Qed.

Lemma X20_serial_and_life_constant_offset_witness :
  let w := Sample.world Sample.files Sample.pems Sample.cet in
  let self := Sample.installer Sample.no_conf (Some "s.valid") in
  let data := payload_of "LEAF" "KEY" "LEAF+INTERMEDIATES" Sample.leaf
                         1704063600 1711839600 in
  In (Some "secret", "example.com", data)
     (written (trace (deploy_cert w self "example.com" "/live/cert.pem"
                        "/live/privkey.pem" "/live/chain.pem"
                        "/live/fullchain.pem"))) /\
  exists cert x nb na issued expires,
    file_text w "/live/cert.pem" = Return cert /\
    parse_certificate w cert = Return x /\
    PyDatetime.strptime (get_notBefore x) = Some nb /\
    PyDatetime.strptime (get_notAfter x) = Some na /\
    dict_get data "serial" = Some (JStr (Py.str_int (get_serial_number x))) /\
    Py.int_of_str (Py.str_int (get_serial_number x))
    = Some (get_serial_number x) /\
    life_of data = Some (issued, expires) /\
    issued = PyDatetime.seconds_since_epoch nb - 3600 /\
    expires = PyDatetime.seconds_since_epoch na - 3600 /\
    (PyDatetime.seconds_since_epoch nb < PyDatetime.seconds_since_epoch na ->
     issued < expires).
Proof.
  cbv zeta.
  assert (Hwrite :
    In (Some "secret", "example.com",
        payload_of "LEAF" "KEY" "LEAF+INTERMEDIATES" Sample.leaf
                   1704063600 1711839600)
       (written (trace (deploy_cert
          (Sample.world Sample.files Sample.pems Sample.cet)
          (Sample.installer Sample.no_conf (Some "s.valid"))
          "example.com" "/live/cert.pem" "/live/privkey.pem"
          "/live/chain.pem" "/live/fullchain.pem")))).
  { vm_compute. left. reflexivity. }
  split; [exact Hwrite |].
  exact (X20_serial_and_life_constant_offset
           (Sample.world Sample.files Sample.pems Sample.cet)
           (Sample.installer Sample.no_conf (Some "s.valid"))
           "example.com" "/live/cert.pem" "/live/privkey.pem"
           "/live/chain.pem" "/live/fullchain.pem"
           _ _ _ 3600 (fun u => eq_refl) Hwrite).
Defined.

(** ** What a deploy call does not do *)

(** X19: a deploy call never asks whether the client is authenticated
    and never logs in, whatever its inputs; and the files it opens are an
    initial part of certificate, key, full chain, each opened once and in
    this order. *)
Theorem X19_deploy_calls (w : World) (self : VaultInstaller)
    (domain cert_path key_path chain_path fullchain_path : string) :
  let run := deploy_cert w self domain cert_path key_path chain_path
                         fullchain_path in
  existsb is_auth_check (trace run) = false /\
  existsb is_approle_login (trace run) = false /\
  existsb is_jwt_login (trace run) = false /\
  exists n, opened (trace run)
            = firstn n [cert_path; key_path; fullchain_path].
Proof.
  cbv zeta. rewrite deploy_cert_run.
  destruct (file_text w cert_path) as [e | cert];
    [repeat split; try reflexivity; now exists 1%nat |].
  destruct (parse_certificate w cert) as [e | x];
    [repeat split; try reflexivity; now exists 1%nat |].
  destruct (file_text w key_path) as [e | key];
    [repeat split; try reflexivity; now exists 2%nat |].
  destruct (file_text w fullchain_path) as [e | chain];
    [repeat split; try reflexivity; now exists 3%nat |].
  destruct (asn1_seconds w (get_notBefore x)) as [e | issued];
    [repeat split; try reflexivity; now exists 3%nat |].
  destruct (asn1_seconds w (get_notAfter x)) as [e | expires];
    [repeat split; try reflexivity; now exists 3%nat |].
  repeat split; try reflexivity. now exists 3%nat.
Qed.
